(** * draftin: a client binding for the draftin.com REST API

    A shallow embedding of [draftin.py] and the properties of its
    transport, error mapper, entity wrapper and document entity.

    Python values that travel through the client (decoded JSON, ids,
    contents, names) are values of type [value]; a Python call that may
    raise returns a [res]; code that talks to the network or mutates
    [self] runs in the state-and-exception monad [M]. *)

From Stdlib Require Import ZArith String Ascii List Bool Lia DecimalString.
Import ListNotations.

Set Warnings "-register-all".
Local Open Scope string_scope.
Local Open Scope Z_scope.

(** ** Python values *)

(** What [json.loads] can produce, which is also what the client is handed
    as ids, contents and names.  [VDict] keeps the insertion order of the
    Python dict; non-integral numbers are not represented. *)
Inductive value : Type :=
| VNone
| VBool (b : bool)
| VInt (n : Z)
| VStr (s : string)
| VList (l : list value)
| VDict (d : list (string * value)).

(** [bool(v)]: the truth value Python tests in [if v:] and [not v]. *)
Definition truthy (v : value) : bool :=
  match v with
  | VNone => false
  | VBool b => b
  | VInt n => negb (n =? 0)
  | VStr s => negb (s =? "")%string
  | VList l => match l with [] => false | _ :: _ => true end
  | VDict d => match d with [] => false | _ :: _ => true end
  end.

Module Dict.

(** [d.get(k)] as an option *)
Fixpoint lookup (d : list (string * value)) (k : string) : option value :=
  match d with
  | [] => None
  | (k', v) :: d' => if (k' =? k)%string then Some v else lookup d' k
  end.

(** [d.get(k, default)] *)
Definition get (d : list (string * value)) (k : string) (default : value)
  : value :=
  match lookup d k with Some v => v | None => default end.

(** [d[k] = v]: overwrite in place, or append a new key. *)
Fixpoint set (d : list (string * value)) (k : string) (v : value)
  : list (string * value) :=
  match d with
  | [] => [(k, v)]
  | (k', v') :: d' =>
      if (k' =? k)%string then (k', v) :: d' else (k', v') :: set d' k v
  end.

End Dict.

(** ** Python strings *)

Module Str.

Definition lower_ascii (c : ascii) : ascii :=
  let n := nat_of_ascii c in
  if (65 <=? n)%nat && (n <=? 90)%nat then ascii_of_nat (n + 32) else c.

(** [s.lower()], on the ASCII letters. *)
Fixpoint lower (s : string) : string :=
  match s with
  | EmptyString => EmptyString
  | String c s' => String (lower_ascii c) (lower s')
  end.

(** [s.startswith(p)] *)
Definition startswith (s p : string) : bool := String.prefix p s.

(** [p in s] for two strings *)
Definition contains (s p : string) : bool :=
  match String.index 0 p s with Some _ => true | None => false end.

(** [s[:n]] and [s[n:]] *)
Fixpoint take (n : nat) (s : string) : string :=
  match n, s with
  | S n', String c s' => String c (take n' s')
  | _, _ => EmptyString
  end.

Fixpoint drop (n : nat) (s : string) : string :=
  match n, s with
  | S n', String _ s' => drop n' s'
  | _, _ => s
  end.

(** [s.find(c)] for a single character, [None] for [-1]. *)
Fixpoint find (c : ascii) (s : string) : option nat :=
  match s with
  | EmptyString => None
  | String c' s' =>
      if Ascii.eqb c' c then Some O
      else match find c s' with Some i => Some (S i) | None => None end
  end.

(** [s.rfind(c)] *)
Fixpoint rfind (c : ascii) (s : string) : option nat :=
  match s with
  | EmptyString => None
  | String c' s' =>
      match rfind c s' with
      | Some i => Some (S i)
      | None => if Ascii.eqb c' c then Some O else None
      end
  end.

(** [s.split(c)]: never the empty list. *)
Fixpoint split (c : ascii) (s : string) : list string :=
  match s with
  | EmptyString => [EmptyString]
  | String c' s' =>
      if Ascii.eqb c' c then EmptyString :: split c s'
      else match split c s' with
           | [] => [String c' EmptyString]
           | w :: ws => String c' w :: ws
           end
  end.

(** [s.split(c, 1)] when [c] occurs in [s]. *)
Definition split1 (c : ascii) (s : string) : option (string * string) :=
  match find c s with
  | Some i => Some (take i s, drop (S i) s)
  | None => None
  end.

(** [sep.join(l)] *)
Fixpoint join (sep : string) (l : list string) : string :=
  match l with
  | [] => EmptyString
  | [w] => w
  | w :: ws => w ++ sep ++ join sep ws
  end.

(** [all(c in chars for c in s)] *)
Fixpoint all_in (chars : string) (s : string) : bool :=
  match s with
  | EmptyString => true
  | String c s' =>
      match find c chars with Some _ => all_in chars s' | None => false end
  end.

(** ['%d' % n] and [str(n)] for an integer. *)
Definition of_Z (n : Z) : string := NilEmpty.string_of_int (Z.to_int n).

(** The characters of a string, as Python iterates over it. *)
Fixpoint chars (s : string) : list string :=
  match s with
  | EmptyString => []
  | String c s' => String c EmptyString :: chars s'
  end.

End Str.

(** ** urllib.parse: resolving a path against a base URL

    The client builds every URL with [urljoin(base, path)].  The model
    follows the structure of CPython 3's [urllib.parse]: [urlsplit],
    [urlparse], [urlunparse] and the RFC 3986 merge of [urljoin].  Left out:
    the removal of tab, CR and LF and of leading control characters that
    recent versions perform, and the bracket checks on IPv6 hosts.  The
    model is therefore meant for references free of control characters
    and spaces and without an authority; the statements on URLs below
    stay within them. *)

Module Url.

Definition scheme_chars : string :=
  "abcdefghijklmnopqrstuvwxyzABCDEFGHIJKLMNOPQRSTUVWXYZ0123456789+-.".

Definition uses_relative : list string :=
  [""; "ftp"; "http"; "gopher"; "nntp"; "imap"; "wais"; "file"; "https";
   "shttp"; "mms"; "prospero"; "rtsp"; "rtspu"; "sftp"; "svn"; "svn+ssh";
   "ws"; "wss"].

Definition uses_netloc : list string :=
  [""; "ftp"; "http"; "gopher"; "nntp"; "telnet"; "imap"; "wais"; "file";
   "mms"; "https"; "shttp"; "snews"; "prospero"; "rtsp"; "rtspu"; "rsync";
   "svn"; "svn+ssh"; "sftp"; "nfs"; "git"; "git+ssh"; "ws"; "wss"].

Definition uses_params : list string :=
  [""; "ftp"; "hdl"; "prospero"; "http"; "imap"; "https"; "shttp"; "rtsp";
   "rtspu"; "sip"; "sips"; "mms"; "sftp"; "tel"].

Definition elem (s : string) (l : list string) : bool :=
  existsb (String.eqb s) l.

Definition nonempty (s : string) : bool := negb (s =? "")%string.

Record parts : Type := mk_parts {
  scheme : string;
  netloc : string;
  path : string;
  params : string;
  query : string;
  fragment : string
}.

(** The end of the authority: the first of [/], [?], [#]. *)
Fixpoint netloc_end (s : string) : nat :=
  match s with
  | EmptyString => O
  | String c s' =>
      if Ascii.eqb c "/" || Ascii.eqb c "?" || Ascii.eqb c "#" then O
      else S (netloc_end s')
  end.

(** [urlsplit(url, scheme)], with the parameters still in the path. *)
Definition urlsplit (url default_scheme : string) : parts :=
  let '(sch, url) :=
    match Str.find ":" url with
    | Some (S i) =>
        if Str.all_in scheme_chars (Str.take (S i) url)
        then (Str.lower (Str.take (S i) url), Str.drop (S (S i)) url)
        else (default_scheme, url)
    | _ => (default_scheme, url)
    end in
  let '(loc, url) :=
    if (Str.take 2 url =? "//")%string
    then let rest := Str.drop 2 url in
         (Str.take (netloc_end rest) rest, Str.drop (netloc_end rest) rest)
    else ("", url) in
  let '(url, frag) :=
    match Str.split1 "#" url with Some p => p | None => (url, "") end in
  let '(url, qry) :=
    match Str.split1 "?" url with Some p => p | None => (url, "") end in
  mk_parts sch loc url "" qry frag.

(** [_splitparams(url)] *)
Definition splitparams (url : string) : string * string :=
  match Str.rfind "/" url with
  | Some j =>
      match Str.find ";" (Str.drop j url) with
      | Some i => (Str.take (j + i) url, Str.drop (S (j + i)) url)
      | None => (url, "")
      end
  | None =>
      match Str.find ";" url with
      | Some i => (Str.take i url, Str.drop (S i) url)
      | None => (url, "")
      end
  end.

(** [urlparse(url, scheme)] *)
Definition urlparse (url default_scheme : string) : parts :=
  let p := urlsplit url default_scheme in
  if elem (scheme p) uses_params
     && match Str.find ";" (path p) with Some _ => true | None => false end
  then let '(u, prm) := splitparams (path p) in
       mk_parts (scheme p) (netloc p) u prm (query p) (fragment p)
  else p.

(** [urlunparse(parts)] *)
Definition urlunparse (p : parts) : string :=
  let url :=
    if nonempty (params p) then path p ++ ";" ++ params p else path p in
  let url :=
    if nonempty (netloc p)
       || (nonempty (scheme p) && elem (scheme p) uses_netloc
           && negb (Str.take 2 url =? "//")%string)
    then "//" ++ netloc p ++
         (if nonempty url && negb (Str.take 1 url =? "/")%string
          then "/" ++ url else url)
    else url in
  let url := if nonempty (scheme p) then scheme p ++ ":" ++ url else url in
  let url := if nonempty (query p) then url ++ "?" ++ query p else url in
  if nonempty (fragment p) then url ++ "#" ++ fragment p else url.

(** The loop of [urljoin] that removes [.] and [..] segments;
    [resolved] is kept in reverse. *)
Fixpoint resolve (segments resolved : list string) : list string :=
  match segments with
  | [] => rev resolved
  | seg :: rest =>
      if (seg =? "..")%string then resolve rest (tl resolved)
      else if (seg =? ".")%string then resolve rest resolved
      else resolve rest (seg :: resolved)
  end.

(** [segments[1:-1] = filter(None, segments[1:-1])] *)
Definition squeeze (segments : list string) : list string :=
  match segments with
  | [] => []
  | [a] => [a]
  | a :: rest =>
      (a :: filter nonempty (removelast rest) ++ [last rest ""])%list
  end.

(** [urljoin(base, url)] *)
Definition urljoin (base url : string) : string :=
  if negb (nonempty base) then url
  else if negb (nonempty url) then base
  else
    let b := urlparse base "" in
    let u := urlparse url (scheme b) in
    if negb (scheme u =? scheme b)%string
       || negb (elem (scheme u) uses_relative)
    then url
    else if elem (scheme u) uses_netloc && nonempty (netloc u)
    then urlunparse u
    else
      let loc := if elem (scheme u) uses_netloc then netloc b else netloc u in
      if negb (nonempty (path u)) && negb (nonempty (params u))
      then urlunparse
             (mk_parts (scheme u) loc (path b) (params b)
                (if nonempty (query u) then query u else query b)
                (fragment u))
      else
        let base_parts := Str.split "/" (path b) in
        let base_parts :=
          if nonempty (last base_parts "") then removelast base_parts
          else base_parts in
        let segments :=
          if (Str.take 1 (path u) =? "/")%string
          then Str.split "/" (path u)
          else squeeze (base_parts ++ Str.split "/" (path u))%list in
        let resolved := resolve segments [] in
        let resolved :=
          if (last segments "" =? ".")%string
             || (last segments "" =? "..")%string
          then (resolved ++ [""])%list else resolved in
        let joined := Str.join "/" resolved in
        urlunparse
          (mk_parts (scheme u) loc
             (if nonempty joined then joined else "/")
             (params u) (query u) (fragment u)).

End Url.

Definition urljoin : string -> string -> string := Url.urljoin.

(** ** HTTP messages, exceptions and the monad of the client *)

(** The object [requests] returns.  [headers] is a case-insensitive
    mapping; [json] is the outcome of [resp.json()]: [None] when the body
    does not parse (the call raises [ValueError]). *)
Record Response : Type := mk_Response {
  status_code : Z;
  headers : list (string * string);
  text : string;
  json : option value
}.

(** [headers.get(key, default)] on the case-insensitive mapping. *)
Fixpoint headers_get (h : list (string * string)) (key default : string)
  : string :=
  match h with
  | [] => default
  | (k, v) :: h' =>
      if (Str.lower k =? Str.lower key)%string then v
      else headers_get h' key default
  end.

(** [resp.headers.get('Content-Type', '').startswith('application/json')] *)
Definition is_json (resp : Response) : bool :=
  Str.startswith (headers_get (headers resp) "Content-Type" "")
    "application/json".

(** What one call of [requests.<verb>(url, auth=..., headers=..., data=...)]
    puts on the wire. *)
Record Request : Type := mk_Request {
  verb : string;
  url : string;
  auth : string * string;
  req_headers : list (string * string);
  data : option string
}.

Definition DRAFT_API_URL : string := "https://draftin.com/api/v1/".

(** [class DraftApiException(Exception)]; [msg] is the argument handed to
    [Exception.__init__]. *)
Record DraftApiException : Type := mk_DraftApiException {
  response : Response;
  code : Z;
  msg : value
}.

Definition DraftApiException__init__ (resp : Response) : DraftApiException :=
  {| response := resp;
     code := status_code resp;
     msg :=
       if is_json resp then
         match json resp with
         | Some (VDict d) =>
             Dict.get d "error" (VStr "Unknown error invoking the Draft API")
         | Some _ => VStr (text resp)   (* no [.get]: the bare [except] *)
         | None => VStr (text resp)     (* [json()] raised *)
         end
       else
         VStr ("Unknown error invoking the Draft API ("
               ++ Str.of_Z (status_code resp) ++ ")") |}.

(** The Python exceptions other than the client's own. *)
Inductive pyerr : Type := AttributeError | TypeError | ValueError.

Inductive exn : Type :=
| ApiError (e : DraftApiException)
| PyError (e : pyerr).

Inductive res (A : Type) : Type :=
| Ok (a : A)
| Raise (e : exn).
Arguments Ok {A} a.
Arguments Raise {A} e.

(** A computation over a mutable state [S] that returns or raises; the
    state survives a raise. *)
Definition M (S A : Type) : Type := S -> res A * S.

Definition ret {S A} (a : A) : M S A := fun s => (Ok a, s).

Definition raise {S A} (e : exn) : M S A := fun s => (Raise e, s).

Definition bind {S A B} (c : M S A) (k : A -> M S B) : M S B :=
  fun s =>
    match fst (c s) with
    | Ok a => k a (snd (c s))
    | Raise e => (Raise e, snd (c s))
    end.

Definition pure {S A} (r : res A) : M S A := fun s => (r, s).

Declare Scope py_scope.
Delimit Scope py_scope with py.
Notation "x <- c ;; k" := (bind c (fun x => k))
  (at level 100, c at next level, right associativity) : py_scope.
Notation "c ;;; k" := (bind c (fun _ => k))
  (at level 100, right associativity) : py_scope.
Local Open Scope py_scope.

(** The requests sent so far, oldest first. *)
Definition world : Type := list Request.

(** [class DraftApi] *)
Record DraftApi : Type := mk_DraftApi {
  _url : string;
  _user : string;
  _password : string
}.

Definition DraftApi__init__ (user password : string) : DraftApi :=
  {| _url := DRAFT_API_URL; _user := user; _password := password |}.

(** [DraftApi._check_response] *)
Definition _check_response {S} (resp : Response) : M S unit :=
  if (status_code resp <? 200) || (status_code resp >? 299)
  then raise (ApiError (DraftApiException__init__ resp))
  else ret tt.

(** The functions of the [requests] module that send a request. *)
Definition http_functions : list string :=
  ["get"; "options"; "head"; "post"; "put"; "patch"; "delete"].

(** [class BaseDraftObj]; [DraftDocument] and [DraftSavePoint] add no
    field. *)
Record BaseDraftObj : Type := mk_BaseDraftObj {
  api : DraftApi;
  _data : value
}.

Definition DraftDocument : Type := BaseDraftObj.
Definition DraftSavePoint : Type := BaseDraftObj.

(** [BaseDraftObj.__getattr__]: [name in self._data] is a key test on a
    dict, an element test on a list, a substring test on a string and a
    [TypeError] on a number; indexing anything but a dict by a string is a
    [TypeError]. *)
Definition __getattr__ (self : BaseDraftObj) (name : string) : res value :=
  if truthy (_data self) then
    match _data self with
    | VDict d =>
        match Dict.lookup d name with
        | Some v => Ok v
        | None => Raise (PyError AttributeError)
        end
    | VList l =>
        if existsb (fun v => match v with
                            | VStr s => (s =? name)%string
                            | _ => false
                            end) l
        then Raise (PyError TypeError)
        else Raise (PyError AttributeError)
    | VStr s =>
        if Str.contains s name then Raise (PyError TypeError)
        else Raise (PyError AttributeError)
    | _ => Raise (PyError TypeError)
    end
  else Raise (PyError AttributeError).

(** [getattr(self, name, default)]: only [AttributeError] is absorbed. *)
Definition getattr (self : BaseDraftObj) (name : string) (default : value)
  : res value :=
  match __getattr__ self name with
  | Raise (PyError AttributeError) => Ok default
  | r => r
  end.

(** [BaseDraftObj.objid] *)
Definition objid (self : BaseDraftObj) : res value := getattr self "id" VNone.

(** The names that normal lookup finds on an entity, so that
    [__getattr__] is never asked for them: the two instance attributes of
    [__init__] and the names the three classes define. *)
Definition own_names : list string :=
  ["api"; "_data"; "__init__"; "__getattr__"; "objid"; "__repr__";
   "set_data"; "updated"; "created"; "delete"; "from_id"; "_get_document";
   "refresh"; "_createdoc"; "update"; "savepoints"; "createsave"].

(** The read [self.name] is answered by [__getattr__ self name]: [name] is
    none of [own_names], and no double-underscore name either, since the
    interpreter defines some of those on every object. *)
Definition hooked (name : string) : bool :=
  negb (existsb (String.eqb name) own_names)
  && negb (Str.startswith name "__").

(** ** Sample services and values, for the examples *)

Definition dquote : string := String (ascii_of_nat 34) EmptyString.

(** A compact serializer, right for strings that need no escaping. *)
Fixpoint sample_dumps (v : value) : string :=
  match v with
  | VNone => "null"
  | VBool true => "true"
  | VBool false => "false"
  | VInt n => Str.of_Z n
  | VStr s => dquote ++ s ++ dquote
  | VList l => "[" ++ Str.join ", " (map sample_dumps l) ++ "]"
  | VDict d =>
      "{" ++ Str.join ", "
               (map (fun kv => let '(k, x) := kv in
                               dquote ++ k ++ dquote ++ ": " ++ sample_dumps x)
                  d) ++ "}"
  end.

(** Lists and dicts never reach ['%s'] in the examples. *)
Definition sample_repr (v : value) : string := "".

(** Date-times stay as the text they were parsed from. *)
Definition sample_dateparse (s : string) : option string := Some s.

Definition json_response (st : Z) (v : value) : Response :=
  mk_Response st [("Content-Type", "application/json; charset=utf-8")]
    (sample_dumps v) (Some v).

Definition bare_response (st : Z) (body : string) : Response :=
  mk_Response st [("Content-Type", "text/html")] body None.

(** A JSON content type over a body that is no JSON text. *)
Definition broken_json_response (st : Z) (body : string) : Response :=
  mk_Response st [("Content-Type", "application/json")] body None.

Definition always (r : Response) : world -> Request -> Response :=
  fun _ _ => r.

Definition sample_document (id : value) : value :=
  VDict [("id", id); ("name", VStr "t"); ("content", VStr "hello world");
         ("created_at", VStr "2013-01-01T00:00:00Z");
         ("updated_at", VStr "2014-06-30T12:00:00Z")].

(** A service that stores one document, number 7: writes answer 204
    without a body, reads and creations answer with the document. *)
Definition sample_service : world -> Request -> Response :=
  fun _ rq =>
    if (verb rq =? "put")%string || (verb rq =? "delete")%string
    then mk_Response 204 [] "" None
    else json_response 200 (sample_document (VInt 7)).

Definition sample_api : DraftApi := DraftApi__init__ "me@example.org" "secret".

(** A document saved as number 7, one whose id is the number 0, and one
    never saved. *)
Definition sample_saved : DraftDocument :=
  mk_BaseDraftObj sample_api (VDict [("id", VInt 7); ("content", VStr "old")]).

Definition sample_zero_id : DraftDocument :=
  mk_BaseDraftObj sample_api (VDict [("id", VInt 0)]).

Definition sample_unsaved : DraftDocument := mk_BaseDraftObj sample_api VNone.

Definition not_found : Response :=
  json_response 404 (VDict [("error", VStr "Not found")]).

Definition no_content : Response := mk_Response 204 [] "" None.

Definition unauthorized : Response :=
  json_response 401 (VDict [("error", VStr "Bad credentials")]).

(** An error body that is JSON but names no error. *)
Definition teapot : Response := json_response 418 (VDict [("hint", VStr "tea")]).

Definition sample_savepoints : value :=
  VList [VDict [("id", VInt 31)]; VDict [("id", VInt 32)]].

(** ** The client

    What lies outside the module is a parameter: the remote service
    ([remote], which answers a request given the requests that came before
    it), [json.dumps], [dateutil]'s parser with its date-time type, and the
    [repr] Python prints for lists and dicts.  The service always answers:
    a connection that fails inside [requests] is not part of the model. *)

Section Client.

Variable remote : world -> Request -> Response.
Variable json_dumps : value -> string.
Variable datetime : Type.
Variable dateparse : string -> option datetime.
Variable repr : value -> string.

(** ['%s' % v] *)
Definition py_str (v : value) : string :=
  match v with
  | VNone => "None"
  | VBool true => "True"
  | VBool false => "False"
  | VInt n => Str.of_Z n
  | VStr s => s
  | _ => repr v
  end.

(** [for x in v]: a list gives its elements, a dict its keys, a string
    its characters; nothing else is iterable. *)
Definition py_iter (v : value) : res (list value) :=
  match v with
  | VList l => Ok l
  | VDict d => Ok (map (fun kv => VStr (fst kv)) d)
  | VStr s => Ok (map VStr (Str.chars s))
  | _ => Raise (PyError TypeError)
  end.

(** One network call: the service answers, the request is recorded. *)
Definition send (rq : Request) : M world Response :=
  fun w => (Ok (remote w rq), (w ++ [rq])%list).

(** [getattr(requests, typ)(url, auth=..., headers=..., **kw)]: a name
    that is not one of the module's HTTP functions ends in an
    [AttributeError] (or in a [TypeError] when the module has the name
    for something else) before anything is sent. *)
Definition requests_call (typ url : string) (au : string * string)
    (hd : list (string * string)) (kw : option string)
  : M world Response :=
  if Url.elem typ http_functions
  then send (mk_Request typ url au hd kw)
  else raise (PyError AttributeError).

(** [DraftApi.request]; [kw] is the [data=] keyword. *)
Definition request (self : DraftApi) (typ path : string)
    (kw : option string) : M world value :=
  let typ := Str.lower typ in
  let url := urljoin (_url self) path in
  resp <- (if (typ =? "post")%string || (typ =? "put")%string
           then requests_call typ url (_user self, _password self)
                  [("Content-Type", "application/json")] kw
           else requests_call typ url (_user self, _password self) [] kw) ;;
  _check_response resp ;;;
  if (status_code resp =? 204) || negb (is_json resp) then ret VNone
  else if (text resp =? " ")%string then ret VNone
  else match json resp with
       | Some v => ret v
       | None => raise (PyError ValueError)
       end.

(** *** BaseDraftObj *)

(** A method runs on [self] and the network. *)
Definition Meth (A : Type) : Type := M (BaseDraftObj * world) A.

Definition get_self : Meth BaseDraftObj := fun s => (Ok (fst s), s).

(** A call through [self.api] leaves [self] alone. *)
Definition call {A} (c : M world A) : Meth A :=
  fun s => (fst (c (snd s)), (fst s, snd (c (snd s)))).

(** [BaseDraftObj.set_data] *)
Definition set_data (d : value) : Meth unit :=
  fun s => (Ok tt, (mk_BaseDraftObj (api (fst s)) d, snd s)).

(** [if date: return dateparse(date) else: return None] *)
Definition parse_if_set (date : value) : res (option datetime) :=
  if truthy date then
    match date with
    | VStr s =>
        match dateparse s with
        | Some t => Ok (Some t)
        | None => Raise (PyError ValueError)
        end
    | _ => Raise (PyError TypeError)
    end
  else Ok None.

(** [BaseDraftObj.updated] *)
Definition updated (self : BaseDraftObj) : res (option datetime) :=
  match getattr self "created_at" VNone with
  | Ok date => parse_if_set date
  | Raise e => Raise e
  end.

(** [BaseDraftObj.created] *)
Definition created (self : BaseDraftObj) : res (option datetime) :=
  match getattr self "updated_at" VNone with
  | Ok date => parse_if_set date
  | Raise e => Raise e
  end.

(** *** DraftSavePoint *)

(** [DraftSavePoint.delete] *)
Definition savepoint_delete : Meth value :=
  self <- get_self ;;
  oid <- pure (objid self) ;;
  call (request (api self) "delete"
          ("savepoints/" ++ py_str oid ++ ".json") None).

(** [DraftSavePoint.from_id] *)
Definition savepoint_from_id (a : DraftApi) (saveid : value)
  : M world DraftSavePoint :=
  d <- request a "get" ("savepoints/" ++ py_str saveid ++ ".json") None ;;
  ret (mk_BaseDraftObj a d).

(** *** DraftDocument *)

(** [DraftDocument._get_document] *)
Definition _get_document (a : DraftApi) (docid : value) : M world value :=
  request a "get" ("/documents/" ++ py_str docid ++ ".json") None.

(** [DraftDocument.from_id] *)
Definition from_id (a : DraftApi) (docid : value) : M world DraftDocument :=
  d <- _get_document a docid ;;
  ret (mk_BaseDraftObj a d).

(** [DraftDocument.refresh] *)
Definition refresh : Meth unit :=
  self <- get_self ;;
  oid <- pure (objid self) ;;
  if negb (truthy oid) then ret tt
  else
    id <- pure (__getattr__ self "id") ;;
    d <- call (_get_document (api self) id) ;;
    set_data d.

(** [DraftDocument._createdoc] *)
Definition _createdoc (content name : value) : Meth unit :=
  self <- get_self ;;
  let args := [("content", content)] in
  let args := if truthy name then Dict.set args "name" name else args in
  d <- call (request (api self) "post" "documents.json"
               (Some (json_dumps (VDict args)))) ;;
  set_data d.

(** [DraftDocument.update] *)
Definition update (content name : value) : Meth unit :=
  self <- get_self ;;
  oid <- pure (objid self) ;;
  if negb (truthy oid) then _createdoc content name
  else
    let args := [("content", content)] in
    let args := if truthy name then Dict.set args "name" name else args in
    id <- pure (__getattr__ self "id") ;;
    call (request (api self) "put" ("documents/" ++ py_str id ++ ".json")
            (Some (json_dumps (VDict args)))) ;;;
    refresh.

(** [DraftDocument.delete] *)
Definition delete : Meth unit :=
  self <- get_self ;;
  oid <- pure (objid self) ;;
  if negb (truthy oid) then ret tt
  else
    id <- pure (__getattr__ self "id") ;;
    call (request (api self) "delete"
            ("documents/" ++ py_str id ++ ".json") None) ;;;
    ret tt.

(** [DraftDocument.savepoints] *)
Definition savepoints : Meth (list DraftSavePoint) :=
  self <- get_self ;;
  oid <- pure (objid self) ;;
  if negb (truthy oid) then ret []
  else
    id <- pure (__getattr__ self "id") ;;
    r <- call (request (api self) "get"
                 ("documents/" ++ py_str id ++ "/savepoints.json") None) ;;
    l <- pure (py_iter r) ;;
    ret (map (mk_BaseDraftObj (api self)) l).

(** [DraftDocument.createsave] *)
Definition createsave : Meth value :=
  self <- get_self ;;
  oid <- pure (objid self) ;;
  if negb (truthy oid) then ret VNone
  else
    id <- pure (__getattr__ self "id") ;;
    call (request (api self) "POST"
            ("documents/" ++ py_str id ++ "/savepoints.json") None).

(** *** DraftApi, the entry points *)

(** [DraftApi.documents] *)
Definition documents (self : DraftApi) : M world (list DraftDocument) :=
  r <- request self "get" "documents.json" None ;;
  l <- pure (py_iter r) ;;
  ret (map (mk_BaseDraftObj self) l).

(** [DraftApi.document] *)
Definition document (self : DraftApi) (docid : value)
  : M world DraftDocument :=
  from_id self docid.

(** [DraftApi.create]: the exception of a failed [update] leaves no
    document behind. *)
Definition create (self : DraftApi) (content name : value)
  : M world DraftDocument :=
  fun w =>
    let r := update content name (mk_BaseDraftObj self VNone, w) in
    match fst r with
    | Ok _ => (Ok (fst (snd r)), snd (snd r))
    | Raise e => (Raise e, snd (snd r))
    end.

(** ** Reading a run

    [request_of] is the request [DraftApi.request] hands to [requests], and
    [outcome] is what it makes of the response; [request_run] below shows
    that a run of [request] is exactly these two. *)

Definition request_of (self : DraftApi) (typ path : string)
    (kw : option string) : Request :=
  mk_Request (Str.lower typ) (urljoin (_url self) path)
    (_user self, _password self)
    (if (Str.lower typ =? "post")%string || (Str.lower typ =? "put")%string
     then [("Content-Type", "application/json")] else [])
    kw.

Definition outcome (resp : Response) : res value :=
  if (status_code resp <? 200) || (status_code resp >? 299)
  then Raise (ApiError (DraftApiException__init__ resp))
  else if (status_code resp =? 204) || negb (is_json resp) then Ok VNone
  else if (text resp =? " ")%string then Ok VNone
  else match json resp with
       | Some v => Ok v
       | None => Raise (PyError ValueError)
       end.

(** The result, the object and the log after a method ran. *)
Definition result {A} (r : res A * (BaseDraftObj * world)) : res A := fst r.
Definition self_after {A} (r : res A * (BaseDraftObj * world))
  : BaseDraftObj := fst (snd r).
Definition sent_after {A} (r : res A * (BaseDraftObj * world)) : world :=
  snd (snd r).

(** The operations of a document that write to the service. *)
Inductive write_op : Type :=
| OpCreate (content name : value)
| OpUpdate (content name : value)
| OpDelete.

Definition run_op (op : write_op) : Meth unit :=
  match op with
  | OpCreate content name => _createdoc content name
  | OpUpdate content name => update content name
  | OpDelete => delete
  end.

(** The log [w'] extends [w] by at most two requests, each with the
    credentials of [a]. *)
Definition sends_as (a : DraftApi) (w w' : world) : Prop :=
  exists l,
    w' = (w ++ l)%list
    /\ (length l <= 2)%nat
    /\ Forall (fun rq => auth rq = (_user a, _password a)) l.

(** The characters that end or split the path of a URL reference. *)
Definition reserved : string := ":/?#;".

(** A control character or the space: the codes up to 32. *)
Definition blank (c : ascii) : bool := (nat_of_ascii c <=? 32)%nat.

(** No character of [s] is reserved or blank. *)
Fixpoint plain (s : string) : bool :=
  match s with
  | EmptyString => true
  | String c s' =>
      negb (blank c)
      && match Str.find c reserved with Some _ => false | None => plain s' end
  end.

(** ** The error mapper, in the words of its contract *)

(** The message the contract assigns to a failing response: the [error]
    field of a JSON body that parses to an object holding it, the raw text
    of a JSON body that does not parse, and the generic message with the
    status for a body that is not JSON. *)
Inductive contract_message (resp : Response) : value -> Prop :=
| message_error_field (d : list (string * value)) (v : value) :
    is_json resp = true ->
    json resp = Some (VDict d) ->
    Dict.lookup d "error" = Some v ->
    contract_message resp v
| message_raw_text :
    is_json resp = true ->
    json resp = None ->
    contract_message resp (VStr (text resp))
| message_unknown :
    is_json resp = false ->
    contract_message resp
      (VStr ("Unknown error invoking the Draft API ("
             ++ Str.of_Z (status_code resp) ++ ")")).

(** ** Lemmas on the transport *)

Lemma lower_ascii_idem (c : ascii) :
  Str.lower_ascii (Str.lower_ascii c) = Str.lower_ascii c.
Proof.
  destruct c as [[] [] [] [] [] [] [] []]; reflexivity.
Qed.

Lemma lower_idem (s : string) : Str.lower (Str.lower s) = Str.lower s.
Proof.
  induction s as [|c s IH]; simpl.
  - reflexivity.
  - now rewrite lower_ascii_idem, IH.
Qed.

Lemma request_run (self : DraftApi) (typ path : string) (kw : option string)
    (w : world) :
  Url.elem (Str.lower typ) http_functions = true ->
  request self typ path kw w =
  (outcome (remote w (request_of self typ path kw)),
   (w ++ [request_of self typ path kw])%list).
Proof.
  intros Hverb.
  unfold request, request_of, outcome, requests_call, bind, send,
    _check_response.
  rewrite Hverb.
  destruct ((Str.lower typ =? "post")%string || (Str.lower typ =? "put")%string);
    cbn [fst snd];
    destruct ((status_code _ <? 200) || (status_code _ >? 299));
    cbn [fst snd raise ret];
    try reflexivity;
    destruct ((status_code _ =? 204) || negb (is_json _));
    try reflexivity;
    destruct (text _ =? " ")%string; try reflexivity;
    destruct (json _); reflexivity.
Qed.

Lemma request_not_http (self : DraftApi) (typ path : string)
    (kw : option string) (w : world) :
  Url.elem (Str.lower typ) http_functions = false ->
  request self typ path kw w = (Raise (PyError AttributeError), w).
Proof.
  intros Hverb.
  unfold request, requests_call, bind.
  rewrite Hverb.
  destruct ((Str.lower typ =? "post")%string || (Str.lower typ =? "put")%string);
    reflexivity.
Qed.

(** ** Lemmas on the entity methods *)

(** A truthy [objid()] is the [id] attribute itself, never the default. *)
Lemma objid_attr (doc : BaseDraftObj) (v : value) :
  objid doc = Ok v -> truthy v = true -> __getattr__ doc "id" = Ok v.
Proof.
  unfold objid, getattr.
  destruct (__getattr__ doc "id") as [x | [e | []]]; intros H Ht;
    inversion H; subst; try reflexivity; discriminate Ht.
Qed.

Ltac step_method :=
  unfold bind, get_self, pure, call, set_data, ret, raise; cbn [fst snd].

Ltac enter_saved Hobj Ht :=
  step_method; rewrite Hobj; cbn [fst snd]; rewrite Ht; cbn [negb fst snd];
  rewrite (objid_attr _ _ Hobj Ht); cbn [fst snd];
  rewrite request_run by reflexivity; cbn [fst snd].

Ltac enter_unsaved Hobj Ht :=
  step_method; rewrite Hobj; cbn [fst snd]; rewrite Ht; cbn [negb fst snd].

Lemma createdoc_run (content name : value) (doc : BaseDraftObj) (w : world) :
  let rq := request_of (api doc) "post" "documents.json"
              (Some (json_dumps
                       (VDict (if truthy name
                               then Dict.set [("content", content)] "name" name
                               else [("content", content)])))) in
  _createdoc content name (doc, w) =
  match outcome (remote w rq) with
  | Ok d => (Ok tt, (mk_BaseDraftObj (api doc) d, (w ++ [rq])%list))
  | Raise e => (Raise e, (doc, (w ++ [rq])%list))
  end.
Proof.
  intros rq. unfold _createdoc. step_method.
  rewrite request_run by reflexivity. cbn [fst snd]. fold rq.
  destruct (outcome (remote w rq)); reflexivity.
Qed.

Lemma refresh_run (doc : BaseDraftObj) (w : world) (v : value) :
  objid doc = Ok v -> truthy v = true ->
  let rq := request_of (api doc) "get" ("/documents/" ++ py_str v ++ ".json")
              None in
  refresh (doc, w) =
  match outcome (remote w rq) with
  | Ok d => (Ok tt, (mk_BaseDraftObj (api doc) d, (w ++ [rq])%list))
  | Raise e => (Raise e, (doc, (w ++ [rq])%list))
  end.
Proof.
  intros Hobj Ht rq. unfold refresh, _get_document. enter_saved Hobj Ht.
  fold rq. destruct (outcome (remote w rq)); reflexivity.
Qed.

Lemma update_run (content name : value) (doc : BaseDraftObj) (w : world)
    (v : value) :
  objid doc = Ok v -> truthy v = true ->
  let rq := request_of (api doc) "put" ("documents/" ++ py_str v ++ ".json")
              (Some (json_dumps
                       (VDict (if truthy name
                               then Dict.set [("content", content)] "name" name
                               else [("content", content)])))) in
  update content name (doc, w) =
  match outcome (remote w rq) with
  | Ok _ => refresh (doc, (w ++ [rq])%list)
  | Raise e => (Raise e, (doc, (w ++ [rq])%list))
  end.
Proof.
  intros Hobj Ht rq. unfold update. enter_saved Hobj Ht.
  fold rq. destruct (outcome (remote w rq)); reflexivity.
Qed.

Lemma update_unsaved (content name : value) (doc : BaseDraftObj) (w : world)
    (v : value) :
  objid doc = Ok v -> truthy v = false ->
  update content name (doc, w) = _createdoc content name (doc, w).
Proof.
  intros Hobj Ht. unfold update. enter_unsaved Hobj Ht. reflexivity.
Qed.

Lemma delete_run (doc : BaseDraftObj) (w : world) (v : value) :
  objid doc = Ok v -> truthy v = true ->
  let rq := request_of (api doc) "delete"
              ("documents/" ++ py_str v ++ ".json") None in
  delete (doc, w) =
  (match outcome (remote w rq) with Ok _ => Ok tt | Raise e => Raise e end,
   (doc, (w ++ [rq])%list)).
Proof.
  intros Hobj Ht rq. unfold delete. enter_saved Hobj Ht.
  fold rq. destruct (outcome (remote w rq)); reflexivity.
Qed.

Lemma savepoints_sent (doc : BaseDraftObj) (w : world) (v : value) :
  objid doc = Ok v -> truthy v = true ->
  sent_after (savepoints (doc, w)) =
  (w ++ [request_of (api doc) "get"
           ("documents/" ++ py_str v ++ "/savepoints.json") None])%list.
Proof.
  intros Hobj Ht. unfold sent_after, savepoints. enter_saved Hobj Ht.
  destruct (outcome _) as [r | e]; cbn [fst snd]; [|reflexivity].
  destruct (py_iter r); reflexivity.
Qed.

Lemma createsave_run (doc : BaseDraftObj) (w : world) (v : value) :
  objid doc = Ok v -> truthy v = true ->
  let rq := request_of (api doc) "POST"
              ("documents/" ++ py_str v ++ "/savepoints.json") None in
  createsave (doc, w) = (outcome (remote w rq), (doc, (w ++ [rq])%list)).
Proof.
  intros Hobj Ht rq. unfold createsave. enter_saved Hobj Ht.
  destruct doc; reflexivity.
Qed.

(** A method that raises leaves [self] as it found it. *)
Lemma raise_keeps_self (op : write_op) (doc : BaseDraftObj) (w : world)
    (e : exn) :
  result (run_op op (doc, w)) = Raise e ->
  self_after (run_op op (doc, w)) = doc.
Proof.
  unfold result, self_after.
  assert (Hcreate : forall c n,
             fst (_createdoc c n (doc, w)) = Raise e ->
             fst (snd (_createdoc c n (doc, w))) = doc).
  { intros c n. rewrite createdoc_run.
    destruct (outcome _); cbn [fst snd]; [discriminate | reflexivity]. }
  destruct op as [c n | c n |]; cbn [run_op].
  - apply Hcreate.
  - destruct (objid doc) as [v | e'] eqn:Hobj.
    + destruct (truthy v) eqn:Ht.
      * rewrite (update_run c n doc w v Hobj Ht).
        destruct (outcome _); cbn [fst snd]; [|reflexivity].
        rewrite (refresh_run doc _ v Hobj Ht).
        destruct (outcome _); cbn [fst snd]; [discriminate | reflexivity].
      * rewrite (update_unsaved c n doc w v Hobj Ht). apply Hcreate.
    + unfold update. step_method. rewrite Hobj. reflexivity.
  - destruct (objid doc) as [v | e'] eqn:Hobj.
    + destruct (truthy v) eqn:Ht.
      * rewrite (delete_run doc w v Hobj Ht). reflexivity.
      * unfold delete. enter_unsaved Hobj Ht. reflexivity.
    + unfold delete. step_method. rewrite Hobj. reflexivity.
Qed.

(** ** Properties of the transport *)

(** C10: [request] lowers the method name before anything else, so a
    method name and its lowercase form give the same run; the ['POST'] of
    [createsave] is the request of ['post']. *)
Theorem request_method_case_insensitive (self : DraftApi) (m path : string)
    (kw : option string) (w : world) :
  request self m path kw w = request self (Str.lower m) path kw w
  /\ request self "POST" path kw w = request self "post" path kw w.
Proof.
  split.
  - unfold request. rewrite lower_idem. reflexivity.
  - reflexivity.
Qed.

(** C4: for the response to a request, [request] raises the API error
    exactly when the status is outside 200-299; it then raises the
    exception built from that response and returns no value, and on a 2xx
    status no API error is raised. *)
Theorem request_raises_iff_not_2xx (self : DraftApi) (typ path : string)
    (kw : option string) (w : world) :
  Url.elem (Str.lower typ) http_functions = true ->
  let resp := remote w (request_of self typ path kw) in
  let r := fst (request self typ path kw w) in
  ((exists e, r = Raise (ApiError e)) <->
   (status_code resp < 200 \/ 299 < status_code resp))
  /\ ((status_code resp < 200 \/ 299 < status_code resp) ->
      r = Raise (ApiError (DraftApiException__init__ resp))
      /\ forall v, r <> Ok v)
  /\ (200 <= status_code resp <= 299 -> forall e, r <> Raise (ApiError e)).
Proof.
  intros Hverb resp r. subst r. rewrite request_run by exact Hverb.
  cbn [fst]. fold resp. unfold outcome.
  destruct (status_code resp <? 200) eqn:Hlo;
    destruct (status_code resp >? 299) eqn:Hhi; cbn [orb];
    rewrite ?Z.ltb_lt, ?Z.ltb_ge in Hlo;
    rewrite Z.gtb_ltb in Hhi; rewrite ?Z.ltb_lt, ?Z.ltb_ge in Hhi.
  1-3: (split; [split; [intros _; lia | intros _; eexists; reflexivity]
               | split; [intros _; split; [reflexivity | discriminate]
                        | intros ?; lia]]).
  assert (Hno : forall e,
             (if (status_code resp =? 204) || negb (is_json resp)
              then Ok VNone
              else if (text resp =? " ")%string then Ok VNone
                   else match json resp with
                        | Some v => Ok v
                        | None => Raise (PyError ValueError)
                        end) <> Raise (ApiError e)).
  { intros e.
    destruct ((status_code resp =? 204) || negb (is_json resp));
      [discriminate|].
    destruct (text resp =? " ")%string; [discriminate|].
    destruct (json resp); discriminate. }
  split; [split; [intros [e He]; exfalso; exact (Hno e He) | intros ?; lia]
         | split; [intros ?; lia | intros _; exact Hno]].
Qed.

(** C5, amended: on a 2xx response [request] returns [None] for status
    204, for a content type that is not JSON and for a body of one space;
    otherwise it returns the parsed body when the body parses, and the
    [ValueError] of the parser propagates when it does not. *)
Theorem request_decodes_success (self : DraftApi) (typ path : string)
    (kw : option string) (w : world) :
  Url.elem (Str.lower typ) http_functions = true ->
  let resp := remote w (request_of self typ path kw) in
  200 <= status_code resp <= 299 ->
  fst (request self typ path kw w) =
  if (status_code resp =? 204) || negb (is_json resp)
     || (text resp =? " ")%string
  then Ok VNone
  else match json resp with
       | Some v => Ok v
       | None => Raise (PyError ValueError)
       end.
Proof.
  intros Hverb resp Hrange. rewrite request_run by exact Hverb.
  cbn [fst]. fold resp. unfold outcome.
  replace (status_code resp <? 200) with false
    by (symmetry; apply Z.ltb_ge; lia).
  replace (status_code resp >? 299) with false
    by (symmetry; rewrite Z.gtb_ltb; apply Z.ltb_ge; lia).
  cbn [orb].
  destruct ((status_code resp =? 204) || negb (is_json resp));
    [reflexivity|].
  cbn [orb]. reflexivity.
Qed.

(** C7: the exception built from any response carries the status as
    [code] and the response itself as [response]; and whenever the
    contract assigns a message to the response, that message is the one
    the exception holds. *)
Theorem exception_fields (resp : Response) :
  code (DraftApiException__init__ resp) = status_code resp
  /\ response (DraftApiException__init__ resp) = resp
  /\ forall m, contract_message resp m ->
                msg (DraftApiException__init__ resp) = m.
Proof.
  split; [reflexivity | split; [reflexivity|]]. intros m Hm.
  unfold DraftApiException__init__; cbn [msg].
  destruct Hm as [d v Hj Hp Hl | Hj Hp | Hj]; rewrite Hj.
  - rewrite Hp. unfold Dict.get. rewrite Hl. reflexivity.
  - rewrite Hp. reflexivity.
  - reflexivity.
Qed.

(** ** Properties of the entities *)

(** C1, at document 5: [document] sends one GET, and its URL has lost the
    [api/v1/] root of the base, because [_get_document] resolves the
    rooted path [/documents/5.json]; the path [documents/5.json] that the
    other document operations use resolves below the API root.  A decoded
    response does become the backing data. *)
Theorem document_fetch_leaves_api_root (user password : string) (w : world) :
  let a := DraftApi__init__ user password in
  snd (document a (VInt 5) w) =
    (w ++ [mk_Request "get" "https://draftin.com/documents/5.json"
             (user, password) [] None])%list
  /\ urljoin DRAFT_API_URL "documents/5.json" =
     "https://draftin.com/api/v1/documents/5.json"
  /\ fst (document a (VInt 5) w) =
     match fst (_get_document a (VInt 5) w) with
     | Ok d => Ok (mk_BaseDraftObj a d)
     | Raise e => Raise e
     end.
Proof.
  intros a. unfold document, from_id, _get_document, bind.
  rewrite request_run by reflexivity. cbn [fst snd].
  split; [|split].
  - destruct (outcome _); reflexivity.
  - reflexivity.
  - destruct (outcome _); reflexivity.
Qed.

(** C2, at a document holding both timestamps: [updated()] parses the
    [created_at] field and [created()] parses the [updated_at] field, and
    with [updated_at] alone [updated()] has nothing to return. *)
Theorem updated_created_swapped (a : DraftApi) :
  let doc := mk_BaseDraftObj a
               (VDict [("created_at", VStr "2013-01-01T00:00:00Z");
                       ("updated_at", VStr "2014-06-30T12:00:00Z")]) in
  updated doc = parse_if_set (VStr "2013-01-01T00:00:00Z")
  /\ created doc = parse_if_set (VStr "2014-06-30T12:00:00Z")
  /\ updated (mk_BaseDraftObj a
                (VDict [("updated_at", VStr "2014-06-30T12:00:00Z")]))
     = Ok None.
Proof.
  repeat split; reflexivity.
Qed.

(** C3, amended: [update] routes on the truth value of [objid()].  When it
    is falsy (absent, but also 0, the empty string, ...) the call is
    [_createdoc]: one POST of [{content, name?}] to [documents.json], whose
    decoded response becomes the backing data.  When it is truthy the
    call sends PUT [documents/{id}.json] with [{content, name?}], drops
    what that returns, and then fetches the same id with a GET whose
    decoded response replaces the backing data; an error of either
    request ends the call with the data untouched. *)
Theorem update_routes_on_objid (content name : value) (doc : DraftDocument)
    (w : world) (v : value) :
  objid doc = Ok v ->
  let a := api doc in
  let body :=
    Some (json_dumps
            (VDict (("content", content)
                    :: if truthy name then [("name", name)] else []))) in
  let json_type := [("Content-Type", "application/json")] in
  let post := mk_Request "post" (urljoin (_url a) "documents.json")
                (_user a, _password a) json_type body in
  let put := mk_Request "put"
               (urljoin (_url a) ("documents/" ++ py_str v ++ ".json"))
               (_user a, _password a) json_type body in
  let get := mk_Request "get"
               (urljoin (_url a) ("/documents/" ++ py_str v ++ ".json"))
               (_user a, _password a) [] None in
  update content name (doc, w) =
  if truthy v then
    match outcome (remote w put) with
    | Raise e => (Raise e, (doc, w ++ [put]))
    | Ok _ =>
        match outcome (remote (w ++ [put]) get) with
        | Ok d => (Ok tt, (mk_BaseDraftObj a d, (w ++ [put]) ++ [get]))
        | Raise e => (Raise e, (doc, (w ++ [put]) ++ [get]))
        end
    end%list
  else
    match outcome (remote w post) with
    | Ok d => (Ok tt, (mk_BaseDraftObj a d, w ++ [post]))
    | Raise e => (Raise e, (doc, w ++ [post]))
    end%list.
Proof.
  intros Hobj a body json_type post put get. unfold DraftDocument in *.
  assert (Hargs : (if truthy name
                   then Dict.set [("content", content)] "name" name
                   else [("content", content)])
                  = ("content", content)
                    :: (if truthy name then [("name", name)] else [])).
  { destruct (truthy name); reflexivity. }
  destruct (truthy v) eqn:Ht.
  - rewrite (update_run content name doc w v Hobj Ht). rewrite Hargs.
    set (rq := request_of _ _ _ _).
    assert (Hrq : rq = put) by reflexivity. rewrite Hrq. clear Hrq rq.
    destruct (outcome (remote w put)); [|reflexivity].
    rewrite (refresh_run doc _ v Hobj Ht). reflexivity.
  - rewrite (update_unsaved content name doc w v Hobj Ht).
    rewrite createdoc_run. rewrite Hargs. reflexivity.
Qed.

(** C6: a create, an update or a delete that raises the API error leaves
    the backing data of the document as it was before the call. *)
Theorem failed_write_keeps_data (op : write_op) (doc : DraftDocument)
    (w : world) (e : DraftApiException) :
  result (run_op op (doc, w)) = Raise (ApiError e) ->
  _data (self_after (run_op op (doc, w))) = _data doc.
Proof.
  unfold DraftDocument in *.
  intros Hraise. rewrite (raise_keeps_self op doc w _ Hraise). reflexivity.
Qed.

(** C8, amended: with a falsy [objid()] (absent, but also 0, the empty
    string, ...) [delete] returns, [savepoints] returns the empty list and
    [createsave] returns [None], each without a request; with a truthy
    [objid()] each sends exactly one request: DELETE
    [documents/{id}.json], GET [documents/{id}/savepoints.json] and POST
    [documents/{id}/savepoints.json]. *)
Theorem unsaved_guard_on_truth_value (doc : DraftDocument) (w : world)
    (v : value) :
  objid doc = Ok v ->
  let a := api doc in
  let sends (verb path : string) (hd : list (string * string)) :=
    (w ++ [mk_Request verb (urljoin (_url a) path) (_user a, _password a)
             hd None])%list in
  if truthy v then
    sent_after (delete (doc, w)) =
      sends "delete" ("documents/" ++ py_str v ++ ".json") []
    /\ sent_after (savepoints (doc, w)) =
      sends "get" ("documents/" ++ py_str v ++ "/savepoints.json") []
    /\ sent_after (createsave (doc, w)) =
      sends "post" ("documents/" ++ py_str v ++ "/savepoints.json")
        [("Content-Type", "application/json")]
  else
    delete (doc, w) = (Ok tt, (doc, w))
    /\ savepoints (doc, w) = (Ok [], (doc, w))
    /\ createsave (doc, w) = (Ok VNone, (doc, w)).
Proof.
  intros Hobj a sends. unfold DraftDocument in *.
  destruct (truthy v) eqn:Ht.
  - split; [|split].
    + rewrite (delete_run doc w v Hobj Ht). reflexivity.
    + rewrite (savepoints_sent doc w v Hobj Ht). reflexivity.
    + rewrite (createsave_run doc w v Hobj Ht). reflexivity.
  - split; [|split].
    + unfold delete. enter_unsaved Hobj Ht. reflexivity.
    + unfold savepoints. enter_unsaved Hobj Ht. reflexivity.
    + unfold createsave. enter_unsaved Hobj Ht. reflexivity.
Qed.

(** C9: an empty string as [name] is the same call as no name, for
    [_createdoc] and for [update], and the body sent is the serialization
    of a dict that holds the [content] key alone. *)
Theorem empty_name_is_no_name (content : value) (doc : DraftDocument)
    (w : world) :
  let a := api doc in
  let body := Some (json_dumps (VDict [("content", content)])) in
  let json_type := [("Content-Type", "application/json")] in
  _createdoc content (VStr "") (doc, w) = _createdoc content VNone (doc, w)
  /\ update content (VStr "") (doc, w) = update content VNone (doc, w)
  /\ sent_after (_createdoc content (VStr "") (doc, w)) =
     (w ++ [mk_Request "post" (urljoin (_url a) "documents.json")
              (_user a, _password a) json_type body])%list
  /\ forall v, objid doc = Ok v -> truthy v = true ->
       nth_error (sent_after (update content (VStr "") (doc, w))) (length w) =
       Some (mk_Request "put"
               (urljoin (_url a) ("documents/" ++ py_str v ++ ".json"))
               (_user a, _password a) json_type body).
Proof.
  intros a body json_type. unfold DraftDocument in *.
  split; [reflexivity | split; [reflexivity|]].
  split.
  - rewrite createdoc_run. unfold sent_after.
    destruct (outcome _); reflexivity.
  - intros v Hobj Ht. rewrite (update_run _ _ doc w v Hobj Ht).
    unfold sent_after. cbn [truthy String.eqb negb].
    destruct (outcome _); cbn [fst snd].
    + rewrite (refresh_run doc _ v Hobj Ht).
      destruct (outcome _); cbn [fst snd];
        rewrite <- app_assoc; rewrite nth_error_app2 by lia;
        rewrite Nat.sub_diag; reflexivity.
    + rewrite nth_error_app2 by lia. rewrite Nat.sub_diag. reflexivity.
Qed.

(** ** Further properties of the entity wrapper *)

Lemma objid_dict (a : DraftApi) (d : list (string * value)) :
  objid (mk_BaseDraftObj a (VDict d)) = Ok (Dict.get d "id" VNone).
Proof.
  unfold objid, getattr, __getattr__, Dict.get. cbn [_data truthy].
  destruct d as [|kv d]; [reflexivity|].
  destruct (Dict.lookup (kv :: d) "id"); reflexivity.
Qed.

(** X1: on a mapping, [objid()] never raises: it is the [id] entry, or
    [None] when the mapping has none (an empty mapping included); on unset
    data it is [None]. *)
Theorem objid_on_mapping (a : DraftApi) (d : list (string * value)) :
  objid (mk_BaseDraftObj a (VDict d)) = Ok (Dict.get d "id" VNone)
  /\ objid (mk_BaseDraftObj a VNone) = Ok VNone.
Proof.
  split; [apply objid_dict | reflexivity].
Qed.

(** X2: an object whose data is unset or empty (None, an empty mapping,
    an empty list, ...) holds no field: the read of every name that is
    left to [__getattr__] raises [AttributeError], and [objid()],
    [updated()] and [created()] are [None]. *)
Theorem falsy_data_reads_nothing (doc : BaseDraftObj) :
  truthy (_data doc) = false ->
  (forall name, hooked name = true ->
                __getattr__ doc name = Raise (PyError AttributeError))
  /\ objid doc = Ok VNone
  /\ updated doc = Ok None
  /\ created doc = Ok None.
Proof.
  intros Hf.
  assert (H : forall name, __getattr__ doc name = Raise (PyError AttributeError)).
  { intros name. unfold __getattr__. rewrite Hf. reflexivity. }
  split; [intros name _; exact (H name)|].
  unfold objid, updated, created, getattr. rewrite !H.
  repeat split.
Qed.

(** X3: [set_data] replaces the data wholesale: after [set_data(d)] with a
    mapping [d], the read of a name left to [__getattr__] gives the entry
    of [d] or raises [AttributeError], whatever the object held before;
    the transport object stays and nothing is sent. *)
Theorem set_data_then_read (doc : BaseDraftObj) (w : world)
    (d : list (string * value)) (name : string) :
  hooked name = true ->
  let after := set_data (VDict d) (doc, w) in
  __getattr__ (self_after after) name =
    match Dict.lookup d name with
    | Some v => Ok v
    | None => Raise (PyError AttributeError)
    end
  /\ api (self_after after) = api doc
  /\ sent_after after = w
  /\ result after = Ok tt.
Proof.
  intros _. cbv zeta.
  unfold set_data, self_after, sent_after, result, __getattr__.
  cbn [fst snd _data api truthy].
  split; [|repeat split].
  destruct d as [|kv d]; [reflexivity|].
  destruct (Dict.lookup (kv :: d) name); reflexivity.
Qed.

(** ** Further properties of the transport *)


(** X5: the messages the exception takes when the body is JSON but has
    no [error] to show: an object without that key gives the generic
    message, without the status; a JSON value that is no object gives the
    raw text of the body. *)
Theorem exception_message_without_error_field (resp : Response) :
  is_json resp = true ->
  match json resp with
  | Some (VDict d) =>
      Dict.lookup d "error" = None ->
      msg (DraftApiException__init__ resp)
      = VStr "Unknown error invoking the Draft API"
  | _ => msg (DraftApiException__init__ resp) = VStr (text resp)
  end.
Proof.
  intros Hj. unfold DraftApiException__init__. cbn [msg]. rewrite Hj.
  destruct (json resp) as [[ | | | | |d]|]; try reflexivity.
  intros Hl. unfold Dict.get. rewrite Hl. reflexivity.
Qed.

(** ** Further properties of the entry points *)

Lemma objid_unset (a : DraftApi) : objid (mk_BaseDraftObj a VNone) = Ok VNone.
Proof. reflexivity. Qed.

Lemma create_run (self : DraftApi) (content name : value)
    (w : world) :
  let body :=
    Some (json_dumps
            (VDict (("content", content)
                    :: if truthy name then [("name", name)] else []))) in
  let post := mk_Request "post" (urljoin (_url self) "documents.json")
                (_user self, _password self)
                [("Content-Type", "application/json")] body in
  create self content name w =
  match outcome (remote w post) with
  | Ok d => (Ok (mk_BaseDraftObj self d), (w ++ [post])%list)
  | Raise e => (Raise e, (w ++ [post])%list)
  end.
Proof.
  intros body post. unfold create.
  rewrite (update_unsaved content name _ w VNone (objid_unset self) eq_refl).
  rewrite createdoc_run. cbn [api].
  assert (Hargs : (if truthy name
                   then Dict.set [("content", content)] "name" name
                   else [("content", content)])
                  = ("content", content)
                    :: (if truthy name then [("name", name)] else [])).
  { destruct (truthy name); reflexivity. }
  rewrite Hargs.
  set (rq := request_of _ _ _ _).
  assert (Hrq : rq = post) by reflexivity. rewrite Hrq. clear Hrq rq.
  destruct (outcome (remote w post)); reflexivity.
Qed.

(** X6: [DraftApi.create] starts from a document without data, so it
    always takes the creation path: one POST of [{content, name?}] to
    [documents.json] and never a PUT; it returns a document over the
    decoded response, or raises what the request raised. *)
Theorem create_posts_once (self : DraftApi) (content name : value)
    (w : world) :
  let body :=
    Some (json_dumps
            (VDict (("content", content)
                    :: if truthy name then [("name", name)] else []))) in
  let post := mk_Request "post" (urljoin (_url self) "documents.json")
                (_user self, _password self)
                [("Content-Type", "application/json")] body in
  create self content name w =
  match outcome (remote w post) with
  | Ok d => (Ok (mk_BaseDraftObj self d), (w ++ [post])%list)
  | Raise e => (Raise e, (w ++ [post])%list)
  end.
Proof.
  exact (create_run self content name w).
Qed.

(** X7: when the service answers a creation with a mapping, every entry
    of the answer under a name left to [__getattr__] reads back as an
    attribute of the document that [create] returns (the content and the
    name of the tests among them). *)
Theorem created_document_reads_response (self : DraftApi)
    (content name : value) (w : world) (d : list (string * value))
    (k : string) (v : value) :
  fst (request self "post" "documents.json"
         (Some (json_dumps
                  (VDict (("content", content)
                          :: if truthy name then [("name", name)] else []))))
         w) = Ok (VDict d) ->
  Dict.lookup d k = Some v ->
  hooked k = true ->
  exists doc,
    fst (create self content name w) = Ok doc
    /\ __getattr__ doc k = Ok v
    /\ api doc = self.
Proof.
  intros Hresp Hk _. rewrite request_run in Hresp by reflexivity.
  cbn [fst] in Hresp.
  exists (mk_BaseDraftObj self (VDict d)).
  rewrite create_run.
  change (mk_Request "post" (urljoin (_url self) "documents.json")
            (_user self, _password self)
            [("Content-Type", "application/json")]
            (Some (json_dumps
                     (VDict (("content", content)
                             :: (if truthy name then [("name", name)]
                                 else []))))))
    with (request_of self "post" "documents.json"
            (Some (json_dumps
                     (VDict (("content", content)
                             :: (if truthy name then [("name", name)]
                                 else [])))))).
  rewrite Hresp. cbn [fst].
  split; [reflexivity | split; [|reflexivity]].
  unfold __getattr__. cbn [_data truthy].
  destruct d as [|kv d]; [discriminate Hk|].
  rewrite Hk. reflexivity.
Qed.

(** X8: [documents()] sends one GET of [documents.json] and nothing per
    item.  A JSON array comes back as one document per element, in order,
    each over its element; a success without a body (204, no JSON, one
    space) makes the loop raise [TypeError]; an API error passes
    through. *)
Theorem documents_wraps_elements (self : DraftApi) (w : world) :
  let rq := mk_Request "get" (urljoin (_url self) "documents.json")
              (_user self, _password self) [] None in
  snd (documents self w) = (w ++ [rq])%list
  /\ match outcome (remote w rq) with
     | Ok (VList l) =>
         fst (documents self w) = Ok (map (mk_BaseDraftObj self) l)
     | Ok VNone => fst (documents self w) = Raise (PyError TypeError)
     | Ok _ => True
     | Raise e => fst (documents self w) = Raise e
     end.
Proof.
  intros rq. unfold documents, bind, pure, ret.
  rewrite request_run by reflexivity. cbn [fst snd].
  change (request_of self "get" "documents.json" None) with rq.
  destruct (outcome (remote w rq)) as [r | e]; cbn [fst snd].
  - destruct r; cbn [py_iter fst snd]; split; reflexivity || exact I.
  - split; reflexivity.
Qed.

(** X9: a listing or a fetch answered with a status outside 200-299
    raises the API exception with that status as [code] and the response
    attached: 401 for bad credentials, 404 for a missing document. *)
Theorem failed_read_carries_status (self : DraftApi) (docid : value)
    (w : world) :
  let listing := remote w (request_of self "get" "documents.json" None) in
  let fetch :=
    remote w (request_of self "get"
                ("/documents/" ++ py_str docid ++ ".json") None) in
  ((status_code listing < 200 \/ 299 < status_code listing) ->
   exists e, fst (documents self w) = Raise (ApiError e)
             /\ code e = status_code listing /\ response e = listing)
  /\ ((status_code fetch < 200 \/ 299 < status_code fetch) ->
      exists e, fst (document self docid w) = Raise (ApiError e)
                /\ code e = status_code fetch /\ response e = fetch).
Proof.
  intros listing fetch.
  assert (Hout : forall resp,
             (status_code resp < 200 \/ 299 < status_code resp) ->
             outcome resp = Raise (ApiError (DraftApiException__init__ resp))).
  { intros resp H. unfold outcome.
    replace ((status_code resp <? 200) || (status_code resp >? 299))
      with true; [reflexivity|].
    symmetry. apply orb_true_iff. rewrite Z.gtb_ltb, !Z.ltb_lt. exact H. }
  split; intros H.
  - exists (DraftApiException__init__ listing).
    split; [|split; reflexivity].
    unfold documents, bind. rewrite request_run by reflexivity.
    cbn [fst snd]. fold listing. rewrite (Hout listing H). reflexivity.
  - exists (DraftApiException__init__ fetch).
    split; [|split; reflexivity].
    unfold document, from_id, _get_document, bind.
    rewrite request_run by reflexivity.
    cbn [fst snd]. fold fetch. rewrite (Hout fetch H). reflexivity.
Qed.

(** ** Further properties of documents and savepoints *)

Lemma savepoint_delete_run (sp : BaseDraftObj) (w : world) (v : value) :
  objid sp = Ok v ->
  let rq := request_of (api sp) "delete"
              ("savepoints/" ++ py_str v ++ ".json") None in
  savepoint_delete (sp, w) = (outcome (remote w rq), (sp, (w ++ [rq])%list)).
Proof.
  intros Hobj rq. unfold savepoint_delete. step_method.
  rewrite Hobj. cbn [fst snd]. rewrite request_run by reflexivity.
  cbn [fst snd]. destruct sp; reflexivity.
Qed.

(** X10: [DraftSavePoint.delete] has no guard: whatever [objid()] returns
    it sends one DELETE of [savepoints/{objid}.json] and returns what the
    request returned; for a savepoint without an id the path names
    [None]. *)
Theorem savepoint_delete_has_no_guard (sp : DraftSavePoint) (w : world)
    (v : value) :
  objid sp = Ok v ->
  let a := api sp in
  let rq := mk_Request "delete"
              (urljoin (_url a) ("savepoints/" ++ py_str v ++ ".json"))
              (_user a, _password a) [] None in
  savepoint_delete (sp, w) = (outcome (remote w rq), (sp, (w ++ [rq])%list))
  /\ (v = VNone ->
      url rq = urljoin (_url a) "savepoints/None.json").
Proof.
  intros Hobj a rq. unfold DraftSavePoint in *. split.
  - rewrite (savepoint_delete_run sp w v Hobj). reflexivity.
  - intros ->. reflexivity.
Qed.

(** X11: a savepoint fetched by id is deleted under the id the service
    reported for it: when the answer to [from_id] is a mapping with an
    [id] entry, [from_id] returns a savepoint over that mapping, and its
    [delete] sends DELETE [savepoints/{id}.json] with the reported id. *)
Theorem fetched_savepoint_deletes_reported_id (a : DraftApi)
    (saveid : value) (w w' : world) (d : list (string * value))
    (v : value) :
  fst (request a "get" ("savepoints/" ++ py_str saveid ++ ".json") None w)
  = Ok (VDict d) ->
  Dict.lookup d "id" = Some v ->
  fst (savepoint_from_id a saveid w) = Ok (mk_BaseDraftObj a (VDict d))
  /\ sent_after (savepoint_delete (mk_BaseDraftObj a (VDict d), w'))
     = (w' ++ [mk_Request "delete"
                 (urljoin (_url a) ("savepoints/" ++ py_str v ++ ".json"))
                 (_user a, _password a) [] None])%list.
Proof.
  intros Hresp Hid. split.
  - unfold savepoint_from_id, bind. rewrite Hresp. reflexivity.
  - assert (Hobj : objid (mk_BaseDraftObj a (VDict d)) = Ok v).
    { rewrite (objid_dict a d). unfold Dict.get.
      rewrite Hid. reflexivity. }
    rewrite (savepoint_delete_run _ w' v Hobj). reflexivity.
Qed.

(** X12: [refresh] on a document whose [objid()] is falsy does nothing
    and sends nothing; otherwise it sends one GET for the id and replaces
    the data by the decoded response, or raises with the data
    untouched. *)
Theorem refresh_replaces_or_keeps (doc : DraftDocument) (w : world)
    (v : value) :
  objid doc = Ok v ->
  let a := api doc in
  let get := mk_Request "get"
               (urljoin (_url a) ("/documents/" ++ py_str v ++ ".json"))
               (_user a, _password a) [] None in
  refresh (doc, w) =
  if truthy v then
    match outcome (remote w get) with
    | Ok d => (Ok tt, (mk_BaseDraftObj a d, (w ++ [get])%list))
    | Raise e => (Raise e, (doc, (w ++ [get])%list))
    end
  else (Ok tt, (doc, w)).
Proof.
  intros Hobj a get. unfold DraftDocument in *.
  destruct (truthy v) eqn:Ht.
  - rewrite (refresh_run doc w v Hobj Ht). reflexivity.
  - unfold refresh. enter_unsaved Hobj Ht. reflexivity.
Qed.

(** X13: [delete], [savepoints], [createsave] and the [delete] of a
    savepoint never touch the object they are called on: after a
    successful delete the document still holds its id and its data. *)
Theorem readers_keep_self (doc : BaseDraftObj) (w : world) :
  self_after (delete (doc, w)) = doc
  /\ self_after (savepoints (doc, w)) = doc
  /\ self_after (createsave (doc, w)) = doc
  /\ self_after (savepoint_delete (doc, w)) = doc.
Proof.
  unfold self_after.
  destruct (objid doc) as [v | e] eqn:Hobj.
  - split; [|split; [|split]].
    + destruct (truthy v) eqn:Ht.
      * rewrite (delete_run doc w v Hobj Ht). reflexivity.
      * unfold delete. enter_unsaved Hobj Ht. reflexivity.
    + destruct (truthy v) eqn:Ht.
      * unfold savepoints. enter_saved Hobj Ht.
        destruct (outcome _) as [r | e]; cbn [fst snd]; [|reflexivity].
        destruct (py_iter r); reflexivity.
      * unfold savepoints. enter_unsaved Hobj Ht. reflexivity.
    + destruct (truthy v) eqn:Ht.
      * rewrite (createsave_run doc w v Hobj Ht). reflexivity.
      * unfold createsave. enter_unsaved Hobj Ht. reflexivity.
    + rewrite (savepoint_delete_run doc w v Hobj). reflexivity.
  - repeat split.
    + unfold delete. step_method. rewrite Hobj. reflexivity.
    + unfold savepoints. step_method. rewrite Hobj. reflexivity.
    + unfold createsave. step_method. rewrite Hobj. reflexivity.
    + unfold savepoint_delete. step_method. rewrite Hobj. reflexivity.
Qed.

Lemma sends_none (a : DraftApi) (w : world) : sends_as a w w.
Proof.
  exists []. rewrite app_nil_r. repeat split; [cbn; lia | constructor].
Qed.

Lemma sends_one (a : DraftApi) (w : world) (typ path : string)
    (kw : option string) :
  sends_as a w (w ++ [request_of a typ path kw])%list.
Proof.
  eexists. split; [reflexivity | split; [cbn; lia|]].
  repeat constructor.
Qed.

Lemma sends_two (a : DraftApi) (w : world) (typ path typ' path' : string)
    (kw kw' : option string) :
  sends_as a w ((w ++ [request_of a typ path kw])
                ++ [request_of a typ' path' kw'])%list.
Proof.
  eexists. rewrite <- app_assoc. split; [reflexivity | split; [cbn; lia|]].
  repeat constructor.
Qed.

Lemma write_sends (op : write_op) (doc : BaseDraftObj) (w : world) :
  sends_as (api doc) w (sent_after (run_op op (doc, w)))
  /\ api (self_after (run_op op (doc, w))) = api doc.
Proof.
  unfold sent_after, self_after.
  assert (Hc : forall c n,
             sends_as (api doc) w (snd (snd (_createdoc c n (doc, w))))
             /\ api (fst (snd (_createdoc c n (doc, w)))) = api doc).
  { intros c n. rewrite createdoc_run.
    destruct (outcome _); cbn [fst snd api];
      (split; [apply sends_one | reflexivity]). }
  destruct op as [c n | c n |]; cbn [run_op].
  - apply Hc.
  - destruct (objid doc) as [v | e] eqn:Hobj.
    + destruct (truthy v) eqn:Ht.
      * rewrite (update_run c n doc w v Hobj Ht).
        destruct (outcome _); cbn [fst snd].
        -- rewrite (refresh_run doc _ v Hobj Ht).
           destruct (outcome _); cbn [fst snd api];
             (split; [apply sends_two | reflexivity]).
        -- split; [apply sends_one | reflexivity].
      * rewrite (update_unsaved c n doc w v Hobj Ht). apply Hc.
    + unfold update. step_method. rewrite Hobj. cbn [fst snd].
      split; [apply sends_none | reflexivity].
  - destruct (objid doc) as [v | e] eqn:Hobj.
    + destruct (truthy v) eqn:Ht.
      * rewrite (delete_run doc w v Hobj Ht). cbn [fst snd].
        split; [apply sends_one | reflexivity].
      * unfold delete. enter_unsaved Hobj Ht.
        split; [apply sends_none | reflexivity].
    + unfold delete. step_method. rewrite Hobj. cbn [fst snd].
      split; [apply sends_none | reflexivity].
Qed.

(** X14: a create, an update or a delete only appends to the requests
    sent: at most two new requests, each carrying the credentials of the
    document's client, the earlier ones untouched. *)
Theorem writes_append_authenticated (op : write_op) (doc : DraftDocument)
    (w : world) :
  exists l,
    sent_after (run_op op (doc, w)) = (w ++ l)%list
    /\ (length l <= 2)%nat
    /\ Forall (fun rq => auth rq = (_user (api doc), _password (api doc))) l.
Proof.
  exact (proj1 (write_sends op doc w)).
Qed.

(** X15: no create, update or delete changes the client a document talks
    through, whether the call returns or raises. *)
Theorem writes_keep_api (op : write_op) (doc : DraftDocument) (w : world) :
  api (self_after (run_op op (doc, w))) = api doc.
Proof.
  exact (proj2 (write_sends op doc w)).
Qed.

(** X16: [savepoints()] on a saved document wraps a JSON array
    element by element, in order, each savepoint over its element and
    under the document's client; a success without a body makes the loop
    raise [TypeError]; an error of the request passes through. *)
Theorem savepoints_wraps_elements (doc : DraftDocument) (w : world)
    (v : value) :
  objid doc = Ok v -> truthy v = true ->
  let a := api doc in
  let rq := mk_Request "get"
              (urljoin (_url a) ("documents/" ++ py_str v ++ "/savepoints.json"))
              (_user a, _password a) [] None in
  match outcome (remote w rq) with
  | Ok (VList l) =>
      result (savepoints (doc, w)) = Ok (map (mk_BaseDraftObj a) l)
  | Ok VNone => result (savepoints (doc, w)) = Raise (PyError TypeError)
  | Ok _ => True
  | Raise e => result (savepoints (doc, w)) = Raise e
  end.
Proof.
  intros Hobj Ht a rq. unfold DraftDocument in *.
  unfold result, savepoints. enter_saved Hobj Ht.
  set (rq' := request_of _ _ _ _).
  assert (Hrq : rq' = rq) by reflexivity. rewrite Hrq. clear Hrq rq'.
  destruct (outcome (remote w rq)) as [r | e]; cbn [fst snd];
    [|reflexivity].
  destruct r; cbn [py_iter fst snd]; reflexivity || exact I.
Qed.

(** X17: [createsave()] on a saved document returns what the request
    returned, as it is: the decoded response is not wrapped into a
    savepoint, and an error of the request is the error of the call. *)
Theorem createsave_returns_decoded (doc : DraftDocument) (w : world)
    (v : value) :
  objid doc = Ok v -> truthy v = true ->
  let a := api doc in
  let rq := mk_Request "post"
              (urljoin (_url a) ("documents/" ++ py_str v ++ "/savepoints.json"))
              (_user a, _password a)
              [("Content-Type", "application/json")] None in
  result (createsave (doc, w)) = outcome (remote w rq)
  /\ result (createsave (doc, w))
     = fst (request a "post"
              ("documents/" ++ py_str v ++ "/savepoints.json") None w).
Proof.
  intros Hobj Ht a rq. unfold DraftDocument in *.
  rewrite (createsave_run doc w v Hobj Ht).
  rewrite request_run by reflexivity. split; reflexivity.
Qed.

(** X18: after a creation that the service answers with a mapping holding
    a truthy [id], the document is saved: the next [update] starts with
    PUT [documents/{id}.json] under that id and sends no second POST. *)
Theorem update_after_create_puts (self : DraftApi)
    (content name content' name' : value) (w : world)
    (d : list (string * value)) (v : value) :
  let body c n :=
    Some (json_dumps
            (VDict (("content", c)
                    :: if truthy n then [("name", n)] else []))) in
  let json_type := [("Content-Type", "application/json")] in
  fst (request self "post" "documents.json" (body content name) w)
  = Ok (VDict d) ->
  Dict.lookup d "id" = Some v ->
  truthy v = true ->
  exists doc w',
    create self content name w = (Ok doc, w')
    /\ nth_error (sent_after (update content' name' (doc, w'))) (length w')
       = Some (mk_Request "put"
                 (urljoin (_url self) ("documents/" ++ py_str v ++ ".json"))
                 (_user self, _password self) json_type
                 (body content' name'))
    /\ forall rq, In rq (skipn (length w')
                           (sent_after (update content' name' (doc, w')))) ->
                  verb rq <> "post".
Proof.
  intros body json_type Hresp Hid Ht.
  rewrite request_run in Hresp by reflexivity. cbn [fst] in Hresp.
  pose proof (create_run self content name w) as Hc.
  cbv zeta in Hc.
  set (post := mk_Request "post" _ _ _ _) in Hc.
  assert (Hpost : request_of self "post" "documents.json" (body content name)
                  = post) by reflexivity.
  rewrite Hpost in Hresp. rewrite Hresp in Hc.
  exists (mk_BaseDraftObj self (VDict d)), (w ++ [post])%list.
  split; [exact Hc|]. clear Hc Hresp Hpost.
  generalize (w ++ [post])%list. intros w'.
  assert (Hobj : objid (mk_BaseDraftObj self (VDict d)) = Ok v).
  { rewrite (objid_dict self d). unfold Dict.get.
    rewrite Hid. reflexivity. }
  assert (Hargs : forall c n,
             (if truthy n then Dict.set [("content", c)] "name" n
              else [("content", c)])
             = ("content", c) :: (if truthy n then [("name", n)] else [])).
  { intros c n. destruct (truthy n); reflexivity. }
  rewrite (update_run content' name' _ _ v Hobj Ht). rewrite Hargs.
  cbn [api]. unfold sent_after.
  set (put := request_of self "put" _ _).
  destruct (outcome _); cbn [fst snd].
  - rewrite (refresh_run _ _ v Hobj Ht). cbn [api].
    set (get := request_of self "get" _ _).
    destruct (outcome _); cbn [fst snd]; rewrite <- app_assoc;
      (split;
       [ rewrite nth_error_app2 by lia; rewrite Nat.sub_diag; reflexivity
       | intros rq; rewrite skipn_app, skipn_all, Nat.sub_diag;
         cbn [skipn app]; intros [<- | [<- | []]]; discriminate ]).
  - split.
    + rewrite nth_error_app2 by lia. rewrite Nat.sub_diag. reflexivity.
    + intros rq. rewrite skipn_app, skipn_all, Nat.sub_diag.
      cbn [skipn app]. intros [<- | []]. discriminate.
Qed.

(** X19: a creation that the service answers without a body (204, no
    JSON, one space) returns a document that is still unsaved: its
    [objid()] is [None], and the next [update] sends a second POST to
    [documents.json]. *)
Theorem update_after_bodyless_create_posts_again (self : DraftApi)
    (content name content' name' : value) (w : world) :
  let body c n :=
    Some (json_dumps
            (VDict (("content", c)
                    :: if truthy n then [("name", n)] else []))) in
  let post c n :=
    mk_Request "post" (urljoin (_url self) "documents.json")
      (_user self, _password self)
      [("Content-Type", "application/json")] (body c n) in
  fst (request self "post" "documents.json" (body content name) w)
  = Ok VNone ->
  exists doc,
    create self content name w = (Ok doc, (w ++ [post content name])%list)
    /\ objid doc = Ok VNone
    /\ sent_after (update content' name'
                     (doc, (w ++ [post content name])%list))
       = ((w ++ [post content name]) ++ [post content' name'])%list.
Proof.
  intros body post Hresp.
  rewrite request_run in Hresp by reflexivity. cbn [fst] in Hresp.
  pose proof (create_run self content name w) as Hc.
  cbv zeta in Hc.
  assert (Hpost : request_of self "post" "documents.json" (body content name)
                  = post content name) by reflexivity.
  rewrite Hpost in Hresp. fold (body content name) in Hc.
  fold (post content name) in Hc. rewrite Hresp in Hc.
  exists (mk_BaseDraftObj self VNone).
  split; [exact Hc | split; [reflexivity|]]. clear Hc Hresp Hpost.
  rewrite (update_unsaved content' name' _ _ VNone (objid_unset self) eq_refl).
  rewrite createdoc_run. unfold sent_after. cbn [api].
  assert (Hargs : (if truthy name'
                   then Dict.set [("content", content')] "name" name'
                   else [("content", content')])
                  = ("content", content')
                    :: (if truthy name' then [("name", name')] else [])).
  { destruct (truthy name'); reflexivity. }
  rewrite Hargs.
  destruct (outcome _); reflexivity.
Qed.

(** ** Further properties of the timestamps *)

Lemma lookup_set_other (d : list (string * value)) (k k' : string)
    (x : value) :
  k <> k' -> Dict.lookup (Dict.set d k x) k' = Dict.lookup d k'.
Proof.
  intros Hk. induction d as [|[k0 v0] d IH]; cbn [Dict.set Dict.lookup].
  - apply String.eqb_neq in Hk. rewrite Hk. reflexivity.
  - destruct (k0 =? k)%string eqn:E; cbn [Dict.lookup].
    + apply String.eqb_eq in E. subst k0.
      apply String.eqb_neq in Hk. rewrite Hk. reflexivity.
    + rewrite IH. reflexivity.
Qed.

Lemma set_truthy (d : list (string * value)) (k : string) (x : value) :
  truthy (VDict (Dict.set d k x)) = true.
Proof.
  destruct d as [|[k0 v0] d]; cbn [Dict.set truthy]; [reflexivity|].
  destruct (k0 =? k)%string; reflexivity.
Qed.

(** X20: [updated()] depends on the [created_at] entry alone and
    [created()] on the [updated_at] entry alone: writing any value under
    [updated_at] leaves [updated()] as it was, and writing any value under
    [created_at] leaves [created()] as it was. *)
Theorem timestamps_read_the_other_field (a : DraftApi)
    (d : list (string * value)) (x : value) :
  updated (mk_BaseDraftObj a (VDict (Dict.set d "updated_at" x)))
  = updated (mk_BaseDraftObj a (VDict d))
  /\ created (mk_BaseDraftObj a (VDict (Dict.set d "created_at" x)))
     = created (mk_BaseDraftObj a (VDict d)).
Proof.
  unfold updated, created, getattr, __getattr__. cbn [_data].
  rewrite !set_truthy.
  rewrite !lookup_set_other by discriminate.
  destruct d as [|kv d]; split; reflexivity.
Qed.

(** ** The URLs of the client *)

Lemma find_app_plain (c : ascii) (s t : string) :
  (exists i, Str.find c reserved = Some i) -> plain s = true ->
  Str.find c t = None -> Str.find c (s ++ t) = None.
Proof.
  intros [i Hc] Hs Ht. induction s as [|c' s IH]; cbn [append].
  - exact Ht.
  - cbn [plain] in Hs. apply andb_true_iff in Hs. destruct Hs as [_ Hs].
    cbn [Str.find].
    destruct (Ascii.eqb c' c) eqn:E.
    + apply Ascii.eqb_eq in E. subst c'. rewrite Hc in Hs. discriminate.
    + destruct (Str.find c' reserved); [discriminate|].
      rewrite (IH Hs). reflexivity.
Qed.

Lemma split_no_sep (c : ascii) (s : string) :
  Str.find c s = None -> Str.split c s = [s].
Proof.
  induction s as [|c' s IH]; cbn [Str.find Str.split]; [reflexivity|].
  destruct (Ascii.eqb c' c); [discriminate|].
  destruct (Str.find c s); [discriminate|].
  intros _. rewrite (IH eq_refl). reflexivity.
Qed.

Lemma length_app (s t : string) :
  String.length (s ++ t) = (String.length s + String.length t)%nat.
Proof. induction s; cbn; [reflexivity | now rewrite IHs]. Qed.

Lemma longer_differs (s t u : string) :
  (String.length u < String.length t)%nat -> (s ++ t =? u)%string = false.
Proof.
  intros H. apply String.eqb_neq. intros E.
  apply (f_equal String.length) in E. rewrite length_app in E. lia.
Qed.

Lemma urlparse_plain_path (p default : string) :
  Str.find ":" p = None -> (Str.take 2 p =? "//")%string = false ->
  Str.find "#" p = None -> Str.find "?" p = None -> Str.find ";" p = None ->
  Url.urlparse p default = Url.mk_parts default "" p "" "" "".
Proof.
  intros H1 H2 H3 H4 H5. unfold Url.urlparse, Url.urlsplit, Str.split1.
  rewrite H1, H2, H3, H4. cbn [Url.path Url.scheme]. rewrite H5.
  rewrite andb_false_r. reflexivity.
Qed.

Lemma base_parts :
  Url.urlparse DRAFT_API_URL "" =
  Url.mk_parts "https" "draftin.com" "/api/v1/" "" "" "".
Proof. reflexivity. Qed.

Ltac join_under_base pre Hparse Hcolon Hfrag Hquery Hsemi Hsplit Hdd Hd :=
  unfold urljoin, Url.urljoin; rewrite base_parts;
  change (Url.nonempty DRAFT_API_URL) with true;
  match goal with
  | |- context [Url.nonempty (pre ++ ?X)] =>
      change (Url.nonempty (pre ++ X)) with true
  end;
  cbn [negb Url.scheme];
  rewrite (Hparse pre);
  [| cbn [append Str.find Ascii.eqb Bool.eqb];
     rewrite ?Hcolon, ?Hfrag, ?Hquery, ?Hsemi; reflexivity ..];
  cbn; rewrite Hsplit; cbn; rewrite Hdd, Hd; reflexivity.

Lemma urljoin_last_segment (X : string) :
  Str.find ":" X = None -> Str.find "/" X = None -> Str.find "?" X = None ->
  Str.find "#" X = None -> Str.find ";" X = None ->
  (X =? "..")%string = false -> (X =? ".")%string = false ->
  urljoin DRAFT_API_URL ("documents/" ++ X)
  = "https://draftin.com/api/v1/documents/" ++ X
  /\ urljoin DRAFT_API_URL ("savepoints/" ++ X)
     = "https://draftin.com/api/v1/savepoints/" ++ X
  /\ urljoin DRAFT_API_URL ("/documents/" ++ X)
     = "https://draftin.com/documents/" ++ X.
Proof.
  intros Hcolon Hslash Hquery Hfrag Hsemi Hdd Hd.
  pose proof (split_no_sep "/" _ Hslash) as Hsplit.
  assert (Hparse : forall pre,
             Str.find ":" (pre ++ X) = None ->
             (Str.take 2 (pre ++ X) =? "//")%string = false ->
             Str.find "#" (pre ++ X) = None ->
             Str.find "?" (pre ++ X) = None ->
             Str.find ";" (pre ++ X) = None ->
             Url.urlparse (pre ++ X) "https"
             = Url.mk_parts "https" "" (pre ++ X) "" "" "").
  { intros pre. apply urlparse_plain_path. }
  split; [|split].
  - join_under_base "documents/" Hparse Hcolon Hfrag Hquery Hsemi Hsplit Hdd Hd.
  - join_under_base "savepoints/" Hparse Hcolon Hfrag Hquery Hsemi Hsplit Hdd Hd.
  - join_under_base "/documents/" Hparse Hcolon Hfrag Hquery Hsemi Hsplit Hdd Hd.
Qed.

Lemma plain_uint (d : Decimal.uint) :
  plain (NilEmpty.string_of_uint d) = true.
Proof. induction d; cbn; assumption || reflexivity. Qed.

Lemma plain_of_Z (n : Z) : plain (Str.of_Z n) = true.
Proof.
  unfold Str.of_Z. destruct (Z.to_int n); cbn [NilEmpty.string_of_int];
    [apply plain_uint | cbn; apply plain_uint].
Qed.

Lemma plain_urls (s : string) :
  plain s = true ->
  urljoin DRAFT_API_URL ("documents/" ++ s ++ ".json")
  = "https://draftin.com/api/v1/documents/" ++ s ++ ".json"
  /\ urljoin DRAFT_API_URL ("savepoints/" ++ s ++ ".json")
     = "https://draftin.com/api/v1/savepoints/" ++ s ++ ".json"
  /\ urljoin DRAFT_API_URL ("/documents/" ++ s ++ ".json")
     = "https://draftin.com/documents/" ++ s ++ ".json".
Proof.
  intros Hs.
  apply urljoin_last_segment;
    try (apply find_app_plain;
         [eexists; reflexivity | exact Hs | reflexivity]).
  - apply longer_differs. cbn. lia.
  - apply longer_differs. cbn. lia.
Qed.

(** X21: for an id whose text holds none of [: / ? # ;] and no control
    character or space, the paths
    [documents/{id}.json] and [savepoints/{id}.json] resolve below the API
    root of the base URL, to the base followed by the path, while the
    rooted path [/documents/{id}.json] of the document fetch resolves to
    [https://draftin.com/documents/{id}.json], outside of it. *)
Theorem plain_id_urls (s : string) :
  plain s = true ->
  urljoin DRAFT_API_URL ("documents/" ++ s ++ ".json")
  = DRAFT_API_URL ++ "documents/" ++ s ++ ".json"
  /\ urljoin DRAFT_API_URL ("savepoints/" ++ s ++ ".json")
     = DRAFT_API_URL ++ "savepoints/" ++ s ++ ".json"
  /\ urljoin DRAFT_API_URL ("/documents/" ++ s ++ ".json")
     = "https://draftin.com/documents/" ++ s ++ ".json".
Proof.
  exact (plain_urls s).
Qed.

(** X22: for a client built by the constructor and a document whose [id]
    is a nonzero integer [n], [delete] sends its DELETE to
    [https://draftin.com/api/v1/documents/n.json], and [refresh] sends
    its GET to [https://draftin.com/documents/n.json]. *)
Theorem integer_id_urls (user password : string)
    (d : list (string * value)) (n : Z) (w : world) :
  Dict.lookup d "id" = Some (VInt n) ->
  n <> 0 ->
  let doc := mk_BaseDraftObj (DraftApi__init__ user password) (VDict d) in
  sent_after (delete (doc, w))
  = (w ++ [mk_Request "delete"
             ("https://draftin.com/api/v1/documents/" ++ Str.of_Z n ++ ".json")
             (user, password) [] None])%list
  /\ sent_after (refresh (doc, w))
     = (w ++ [mk_Request "get"
                ("https://draftin.com/documents/" ++ Str.of_Z n ++ ".json")
                (user, password) [] None])%list.
Proof.
  intros Hid Hn doc.
  assert (Hobj : objid doc = Ok (VInt n)).
  { unfold doc. rewrite (objid_dict _ d). unfold Dict.get.
    rewrite Hid. reflexivity. }
  assert (Ht : truthy (VInt n) = true).
  { cbn [truthy]. apply negb_true_iff. apply Z.eqb_neq. exact Hn. }
  destruct (plain_urls (Str.of_Z n) (plain_of_Z n)) as (Hdoc & _ & Hroot).
  unfold sent_after. split.
  - rewrite (delete_run doc w _ Hobj Ht). cbn [fst snd].
    unfold request_of. cbn [api doc DraftApi__init__ _url _user _password
                              py_str].
    change (Str.lower "delete") with "delete". cbn [String.eqb orb].
    rewrite Hdoc. reflexivity.
  - rewrite (refresh_run doc w _ Hobj Ht).
    unfold request_of. cbn [api doc DraftApi__init__ _url _user _password
                              py_str].
    change (Str.lower "get") with "get".
    rewrite Hroot. destruct (outcome _); reflexivity.
Qed.

End Client.

(** ** The properties at sample inputs *)

(** A 404 with a JSON error body, asked for with an upper-case method. *)
Lemma request_raises_iff_not_2xx_witness :
  Url.elem (Str.lower "GET") http_functions = true
  /\ fst (request (always not_found) sample_api "GET" "documents/9.json"
            None [])
     = Raise (ApiError (DraftApiException__init__ not_found)).
Proof.
  split; [reflexivity|].
  apply (request_raises_iff_not_2xx (always not_found) sample_api "GET"
           "documents/9.json" None [] eq_refl).
  right. vm_compute. reflexivity.
Defined.

(** C5 as stated fails on a 200 response that announces JSON over an
    empty body: it is none of the three [None] cases, and [request]
    returns nothing, it raises the parser's [ValueError]. *)
Lemma request_unparsable_body_raises :
  let resp := broken_json_response 200 "" in
  let r := fst (request (always resp) sample_api "get" "documents.json"
                  None []) in
  (200 <= status_code resp <= 299)
  /\ status_code resp <> 204
  /\ is_json resp = true
  /\ text resp <> " "
  /\ r = Raise (PyError ValueError)
  /\ forall v, r <> Ok v.
Proof.
  cbv zeta. repeat split; try (vm_compute; congruence); discriminate.
Defined.

(** A 200 with a JSON document decodes to that document. *)
Lemma request_decodes_success_witness :
  Url.elem (Str.lower "get") http_functions = true
  /\ (200 <= status_code
               (sample_service [] (request_of sample_api "get"
                                     "documents/7.json" None)) <= 299)
  /\ fst (request sample_service sample_api "get" "documents/7.json" None [])
     = Ok (sample_document (VInt 7)).
Proof.
  split; [reflexivity|]. split; [vm_compute; split; congruence|].
  refine (eq_trans
            (request_decodes_success sample_service sample_api "get"
               "documents/7.json" None [] eq_refl _) _).
  - vm_compute. split; congruence.
  - reflexivity.
Defined.

(** The exception of the 404 above carries its [error] field. *)
Lemma exception_fields_witness :
  contract_message not_found (VStr "Not found")
  /\ code (DraftApiException__init__ not_found) = 404
  /\ response (DraftApiException__init__ not_found) = not_found
  /\ msg (DraftApiException__init__ not_found) = VStr "Not found".
Proof.
  assert (H : contract_message not_found (VStr "Not found")).
  { apply (message_error_field not_found [("error", VStr "Not found")]);
      reflexivity. }
  split; [exact H|].
  split; [exact (proj1 (exception_fields not_found))|].
  split; [exact (proj1 (proj2 (exception_fields not_found)))|].
  exact (proj2 (proj2 (exception_fields not_found)) (VStr "Not found") H).
Defined.

(** C3 as stated fails on a document whose id is 0: [objid()] is there,
    it is not [None], and [update] sends the POST of a creation, no PUT. *)
Lemma update_zero_id_posts :
  objid sample_zero_id = Ok (VInt 0)
  /\ VInt 0 <> VNone
  /\ sent_after (update sample_service sample_dumps sample_repr
                   (VStr "x") VNone (sample_zero_id, []))
     = [mk_Request "post" "https://draftin.com/api/v1/documents.json"
          ("me@example.org", "secret")
          [("Content-Type", "application/json")]
          (Some (sample_dumps (VDict [("content", VStr "x")])))].
Proof.
  split; [reflexivity | split; [discriminate | reflexivity]].
Defined.

(** Updating document 7: a PUT, then the GET that refreshes the data. *)
Lemma update_routes_on_objid_witness :
  objid sample_saved = Ok (VInt 7)
  /\ update sample_service sample_dumps sample_repr (VStr "x") (VStr "t")
       (sample_saved, [])
     = (Ok tt,
        (mk_BaseDraftObj sample_api (sample_document (VInt 7)),
         [mk_Request "put" "https://draftin.com/api/v1/documents/7.json"
            ("me@example.org", "secret")
            [("Content-Type", "application/json")]
            (Some (sample_dumps
                     (VDict [("content", VStr "x"); ("name", VStr "t")])));
          mk_Request "get" "https://draftin.com/documents/7.json"
            ("me@example.org", "secret") [] None])).
Proof.
  split; [reflexivity|].
  refine (eq_trans
            (update_routes_on_objid sample_service sample_dumps sample_repr
               (VStr "x") (VStr "t") sample_saved [] (VInt 7) eq_refl) _).
  reflexivity.
Defined.

(** An update answered by 404 keeps the old data of document 7. *)
Lemma failed_write_keeps_data_witness :
  result (run_op (always not_found) sample_dumps sample_repr
            (OpUpdate (VStr "x") VNone) (sample_saved, []))
  = Raise (ApiError (DraftApiException__init__ not_found))
  /\ _data (self_after
              (run_op (always not_found) sample_dumps sample_repr
                 (OpUpdate (VStr "x") VNone) (sample_saved, [])))
     = VDict [("id", VInt 7); ("content", VStr "old")].
Proof.
  split; [reflexivity|].
  exact (failed_write_keeps_data (always not_found) sample_dumps sample_repr
           (OpUpdate (VStr "x") VNone) sample_saved []
           (DraftApiException__init__ not_found) eq_refl).
Defined.

(** C8 as stated fails on a document whose id is 0: [objid()] is there,
    and none of the three operations sends its request. *)
Lemma guards_zero_id_send_nothing :
  objid sample_zero_id = Ok (VInt 0)
  /\ VInt 0 <> VNone
  /\ sent_after (delete sample_service sample_repr (sample_zero_id, [])) = []
  /\ sent_after (savepoints sample_service sample_repr (sample_zero_id, []))
     = []
  /\ sent_after (createsave sample_service sample_repr (sample_zero_id, []))
     = [].
Proof.
  split; [reflexivity | split; [discriminate|]]. repeat split.
Defined.

(** Document 7 sends the POST of [createsave]; an unsaved document sends
    nothing on [delete]. *)
Lemma unsaved_guard_on_truth_value_witness :
  objid sample_saved = Ok (VInt 7)
  /\ sent_after (createsave sample_service sample_repr (sample_saved, []))
     = [mk_Request "post"
          "https://draftin.com/api/v1/documents/7/savepoints.json"
          ("me@example.org", "secret")
          [("Content-Type", "application/json")] None]
  /\ objid sample_unsaved = Ok VNone
  /\ delete sample_service sample_repr (sample_unsaved, [])
     = (Ok tt, (sample_unsaved, [])).
Proof.
  split; [reflexivity|]. split.
  - apply (unsaved_guard_on_truth_value sample_service sample_repr
             sample_saved [] (VInt 7) eq_refl).
  - split; [reflexivity|].
    apply (unsaved_guard_on_truth_value sample_service sample_repr
             sample_unsaved [] VNone eq_refl).
Defined.

(** Updating document 7 with an empty name sends the content alone. *)
Lemma empty_name_is_no_name_witness :
  objid sample_saved = Ok (VInt 7)
  /\ truthy (VInt 7) = true
  /\ nth_error
       (sent_after (update sample_service sample_dumps sample_repr
                      (VStr "x") (VStr "") (sample_saved, []))) 0
     = Some (mk_Request "put" "https://draftin.com/api/v1/documents/7.json"
               ("me@example.org", "secret")
               [("Content-Type", "application/json")]
               (Some (sample_dumps (VDict [("content", VStr "x")])))).
Proof.
  split; [reflexivity | split; [reflexivity|]].
  exact (proj2 (proj2 (proj2
           (empty_name_is_no_name sample_service sample_dumps sample_repr
              (VStr "x") sample_saved [])))
           (VInt 7) eq_refl eq_refl).
Defined.

(** ** The further properties at sample inputs *)

(** A document never saved reads as empty. *)
Lemma falsy_data_reads_nothing_witness :
  truthy (_data sample_unsaved) = false
  /\ hooked "content" = true
  /\ __getattr__ sample_unsaved "content" = Raise (PyError AttributeError)
  /\ objid sample_unsaved = Ok VNone.
Proof.
  split; [reflexivity|].
  pose proof (falsy_data_reads_nothing string sample_dateparse sample_unsaved
                eq_refl) as H.
  split; [reflexivity|].
  split; [exact (proj1 H "content" eq_refl) | exact (proj1 (proj2 H))].
Defined.

(** New data for document 7: the old content is gone, the new name is
    there. *)
Lemma set_data_then_read_witness :
  hooked "name" = true
  /\ hooked "content" = true
  /\ __getattr__
       (self_after (set_data (VDict [("name", VStr "t")]) (sample_saved, [])))
       "name" = Ok (VStr "t")
  /\ __getattr__
       (self_after (set_data (VDict [("name", VStr "t")]) (sample_saved, [])))
       "content" = Raise (PyError AttributeError).
Proof.
  split; [reflexivity | split; [reflexivity|]]. split.
  - exact (proj1 (set_data_then_read sample_saved []
                    [("name", VStr "t")] "name" eq_refl)).
  - exact (proj1 (set_data_then_read sample_saved []
                    [("name", VStr "t")] "content" eq_refl)).
Defined.


(** A JSON error body without an [error] entry gives the generic
    message. *)
Lemma exception_message_without_error_field_witness :
  is_json teapot = true
  /\ Dict.lookup [("hint", VStr "tea")] "error" = None
  /\ msg (DraftApiException__init__ teapot)
     = VStr "Unknown error invoking the Draft API".
Proof.
  split; [reflexivity | split; [reflexivity|]].
  exact (exception_message_without_error_field teapot eq_refl eq_refl).
Defined.

(** The content sent to [create] reads back from the answer. *)
Lemma created_document_reads_response_witness :
  hooked "content" = true
  /\ exists doc,
    fst (create sample_service sample_dumps sample_repr sample_api
           (VStr "hello world") (VStr "t") []) = Ok doc
    /\ __getattr__ doc "content" = Ok (VStr "hello world")
    /\ api doc = sample_api.
Proof.
  split; [reflexivity|].
  exact (created_document_reads_response sample_service sample_dumps
           sample_repr sample_api (VStr "hello world") (VStr "t") []
           [("id", VInt 7); ("name", VStr "t");
            ("content", VStr "hello world");
            ("created_at", VStr "2013-01-01T00:00:00Z");
            ("updated_at", VStr "2014-06-30T12:00:00Z")]
           "content" (VStr "hello world") eq_refl eq_refl eq_refl).
Defined.

(** Bad credentials on a listing: the exception has code 401. *)
Lemma failed_read_carries_status_witness :
  (status_code unauthorized < 200 \/ 299 < status_code unauthorized)
  /\ exists e,
       fst (documents (always unauthorized) sample_api []) = Raise (ApiError e)
       /\ code e = 401 /\ response e = unauthorized.
Proof.
  assert (H : status_code unauthorized < 200 \/ 299 < status_code unauthorized)
    by (right; vm_compute; reflexivity).
  split; [exact H|].
  exact (proj1 (failed_read_carries_status (always unauthorized) sample_repr
                  sample_api (VInt 1) []) H).
Defined.

(** Deleting a savepoint that has no id asks for [None]. *)
Lemma savepoint_delete_has_no_guard_witness :
  objid sample_unsaved = Ok VNone
  /\ sent_after (savepoint_delete sample_service sample_repr
                   (sample_unsaved, []))
     = [mk_Request "delete" "https://draftin.com/api/v1/savepoints/None.json"
          ("me@example.org", "secret") [] None].
Proof.
  split; [reflexivity|].
  exact (f_equal (fun r => snd (snd r))
           (proj1 (savepoint_delete_has_no_guard sample_service sample_repr
                     sample_unsaved [] VNone eq_refl))).
Defined.

(** Asked for savepoint 99, answered with number 7: 7 is deleted. *)
Lemma fetched_savepoint_deletes_reported_id_witness :
  fst (request sample_service sample_api "get" "savepoints/99.json" None [])
  = Ok (sample_document (VInt 7))
  /\ sent_after (savepoint_delete sample_service sample_repr
                   (mk_BaseDraftObj sample_api (sample_document (VInt 7)), []))
     = [mk_Request "delete" "https://draftin.com/api/v1/savepoints/7.json"
          ("me@example.org", "secret") [] None].
Proof.
  split; [reflexivity|].
  exact (proj2 (fetched_savepoint_deletes_reported_id sample_service
                  sample_repr sample_api (VInt 99) [] []
                  [("id", VInt 7); ("name", VStr "t");
                   ("content", VStr "hello world");
                   ("created_at", VStr "2013-01-01T00:00:00Z");
                   ("updated_at", VStr "2014-06-30T12:00:00Z")]
                  (VInt 7) eq_refl eq_refl)).
Defined.

(** Refreshing document 7 replaces its data; an unsaved one stays. *)
Lemma refresh_replaces_or_keeps_witness :
  objid sample_saved = Ok (VInt 7)
  /\ self_after (refresh sample_service sample_repr (sample_saved, []))
     = mk_BaseDraftObj sample_api (sample_document (VInt 7))
  /\ objid sample_unsaved = Ok VNone
  /\ refresh sample_service sample_repr (sample_unsaved, [])
     = (Ok tt, (sample_unsaved, [])).
Proof.
  split; [reflexivity|]. split.
  - exact (f_equal (fun r => fst (snd r))
             (refresh_replaces_or_keeps sample_service sample_repr
                sample_saved [] (VInt 7) eq_refl)).
  - split; [reflexivity|].
    exact (refresh_replaces_or_keeps sample_service sample_repr
             sample_unsaved [] VNone eq_refl).
Defined.

(** Two savepoints listed, two savepoints returned. *)
Lemma savepoints_wraps_elements_witness :
  objid sample_saved = Ok (VInt 7)
  /\ truthy (VInt 7) = true
  /\ result (savepoints (always (json_response 200 sample_savepoints))
               sample_repr (sample_saved, []))
     = Ok [mk_BaseDraftObj sample_api (VDict [("id", VInt 31)]);
           mk_BaseDraftObj sample_api (VDict [("id", VInt 32)])].
Proof.
  split; [reflexivity | split; [reflexivity|]].
  exact (savepoints_wraps_elements (always (json_response 200 sample_savepoints))
           sample_repr sample_saved [] (VInt 7) eq_refl eq_refl).
Defined.

(** [createsave] hands back the mapping of the answer. *)
Lemma createsave_returns_decoded_witness :
  objid sample_saved = Ok (VInt 7)
  /\ truthy (VInt 7) = true
  /\ result (createsave sample_service sample_repr (sample_saved, []))
     = Ok (sample_document (VInt 7)).
Proof.
  split; [reflexivity | split; [reflexivity|]].
  exact (proj1 (createsave_returns_decoded sample_service sample_repr
                  sample_saved [] (VInt 7) eq_refl eq_refl)).
Defined.

(** Created as number 7, then updated: the second call starts with a
    PUT for 7. *)
Lemma update_after_create_puts_witness :
  exists doc w',
    create sample_service sample_dumps sample_repr sample_api
      (VStr "hello world") (VStr "t") [] = (Ok doc, w')
    /\ nth_error
         (sent_after (update sample_service sample_dumps sample_repr
                        (VStr "again") VNone (doc, w')))
         (length w')
       = Some (mk_Request "put" "https://draftin.com/api/v1/documents/7.json"
                 ("me@example.org", "secret")
                 [("Content-Type", "application/json")]
                 (Some (sample_dumps (VDict [("content", VStr "again")]))))
    /\ forall rq,
         In rq (skipn (length w')
                  (sent_after (update sample_service sample_dumps sample_repr
                                 (VStr "again") VNone (doc, w')))) ->
         verb rq <> "post".
Proof.
  exact (update_after_create_puts sample_service sample_dumps sample_repr
           sample_api (VStr "hello world") (VStr "t") (VStr "again") VNone []
           [("id", VInt 7); ("name", VStr "t");
            ("content", VStr "hello world");
            ("created_at", VStr "2013-01-01T00:00:00Z");
            ("updated_at", VStr "2014-06-30T12:00:00Z")]
           (VInt 7) eq_refl eq_refl eq_refl).
Defined.

(** A creation answered by 204 leaves the document unsaved: the update
    that follows posts again. *)
Lemma update_after_bodyless_create_posts_again_witness :
  fst (request (always no_content) sample_api "post" "documents.json"
         (Some (sample_dumps (VDict [("content", VStr "x")]))) [])
  = Ok VNone
  /\ exists doc,
       create (always no_content) sample_dumps sample_repr sample_api
         (VStr "x") VNone []
       = (Ok doc,
          [mk_Request "post" "https://draftin.com/api/v1/documents.json"
             ("me@example.org", "secret")
             [("Content-Type", "application/json")]
             (Some (sample_dumps (VDict [("content", VStr "x")])))])
       /\ objid doc = Ok VNone
       /\ length (sent_after
                    (update (always no_content) sample_dumps sample_repr
                       (VStr "y") VNone
                       (doc,
                        [mk_Request "post"
                           "https://draftin.com/api/v1/documents.json"
                           ("me@example.org", "secret")
                           [("Content-Type", "application/json")]
                           (Some (sample_dumps
                                    (VDict [("content", VStr "x")])))])))
          = 2%nat.
Proof.
  split; [reflexivity|].
  destruct (update_after_bodyless_create_posts_again (always no_content)
              sample_dumps sample_repr sample_api (VStr "x") VNone (VStr "y")
              VNone [] eq_refl) as (doc & Hc & Hobj & Hsent).
  exists doc. split; [exact Hc | split; [exact Hobj|]].
  exact (f_equal (@length Request) Hsent).
Defined.

(** The id given as the text [-4], as in the tests. *)
Lemma plain_id_urls_witness :
  plain "-4" = true
  /\ urljoin DRAFT_API_URL "documents/-4.json"
     = "https://draftin.com/api/v1/documents/-4.json"
  /\ urljoin DRAFT_API_URL "/documents/-4.json"
     = "https://draftin.com/documents/-4.json".
Proof.
  split; [reflexivity|].
  pose proof (plain_id_urls "-4" eq_refl) as H.
  split; [exact (proj1 H) | exact (proj2 (proj2 H))].
Defined.

(** Document 144732 of the module's docstring. *)
Lemma integer_id_urls_witness :
  Dict.lookup [("id", VInt 144732)] "id" = Some (VInt 144732)
  /\ 144732 <> 0
  /\ sent_after (delete sample_service sample_repr
                   (mk_BaseDraftObj
                      (DraftApi__init__ "me@example.org" "secret")
                      (VDict [("id", VInt 144732)]), []))
     = [mk_Request "delete"
          "https://draftin.com/api/v1/documents/144732.json"
          ("me@example.org", "secret") [] None].
Proof.
  assert (Hn : 144732 <> 0) by discriminate.
  split; [reflexivity | split; [exact Hn|]].
  exact (proj1 (integer_id_urls sample_service sample_repr "me@example.org"
                  "secret" [("id", VInt 144732)] 144732 [] eq_refl Hn)).
Defined.

